(** * SimpleServer: the lifecycle controller of a preview dev server

    A shallow embedding of the three revisions of the [SimpleServer] class
    (src/src/SimpleServer.ts and the two copies in src/unnamed/part_000) and
    of the [StatusBar] class they drive.

    JavaScript runs every piece of code between two [await]s to completion
    before any other event is handled.  The embedding follows that: each
    synchronous piece is a function on the machine state, each [await] is a
    named suspension point, and the host decides when a suspended call is
    resumed and with what value. *)

From Stdlib Require Import String List ZArith Lia Bool Arith.
Import ListNotations.
Local Open Scope string_scope.

Set Implicit Arguments.

(** The three copies of the class found in the repository. *)
Inductive Revision :=
| SimpleServerTs   (* src/src/SimpleServer.ts *)
| Part000Logger    (* src/unnamed/part_000, lines 73-322: the copy with a logger *)
| Part000Plain.    (* src/unnamed/part_000, lines 324-548 *)

Definition isPart000 (rev : Revision) : bool :=
  match rev with SimpleServerTs => false | _ => true end.

(** [!!x] on an optional object. *)
Definition isSome {A} (o : option A) : bool :=
  match o with Some _ => true | None => false end.

(** Truthiness of a [string | undefined]: the empty string is falsy. *)
Definition truthyStr (o : option string) : bool :=
  match o with Some s => negb (s =? "") | None => false end.

(** Truthiness of a [boolean | undefined]. *)
Definition truthyBool (o : option bool) : bool :=
  match o with Some b => b | None => false end.

(** [a === b] for an optional string against a string. *)
Definition strictEqStr (a : option string) (b : string) : bool :=
  match a with Some s => s =? b | None => false end.

(** ** The parts of the vscode API the class reads *)
Module Vscode.

Record Terminal := {
  terminalId : nat;
  name : string;
  exitStatus : option Z          (* undefined while the process runs *)
}.

Record Tab := { label : string }.
Record TabGroup := { tabs : list Tab }.

Record TextEditor := {
  uri : string;                  (* document.uri *)
  workspaceFolder : option string  (* workspace.getWorkspaceFolder(uri) *)
}.

Inductive ViewColumn := Active | Beside.

(** What the host shows at the moment a piece of code runs. *)
Record Env := {
  terminals : list Terminal;       (* window.terminals *)
  tabGroups : list TabGroup;       (* window.tabGroups.all *)
  activeTextEditor : option TextEditor;
  now : Z                          (* Date.now() *)
}.

(** The notifications a listener can be registered for. *)
Inductive Notification :=
| onDidEndTask
| onDidCloseTerminal
| onDidChangeActiveTextEditor.

Definition Notification_eqb (a b : Notification) : bool :=
  match a, b with
  | onDidEndTask, onDidEndTask => true
  | onDidCloseTerminal, onDidCloseTerminal => true
  | onDidChangeActiveTextEditor, onDidChangeActiveTextEditor => true
  | _, _ => false
  end.

End Vscode.

(** ** StatusBar.ts (part_000, lines 11-71) *)
Module StatusBar.

Record StatusBarInfo := {
  text : string;
  tooltip : option string;
  command : option string;
  color : option string;
  backgroundColor : option string
}.

Record StatusBarConfig := {
  priority : option Z;
  started_ : StatusBarInfo;
  spinning_ : StatusBarInfo;
  stopped_ : StatusBarInfo
}.

Inductive StatusBarState := Started | Spinning | Stopped.

(** The widget returned by [window.createStatusBarItem]. *)
Record StatusBarItem := {
  item_priority : option Z;
  item_text : string;
  item_tooltip : option string;
  item_command : option string;
  item_color : option string;
  item_backgroundColor : option string;
  item_shown : bool;
  item_disposed : bool
}.

Record t := {
  opt : StatusBarConfig;
  state : StatusBarState;
  _statusBar : StatusBarItem
}.

(** [this.opt[this.state]] *)
Definition config (o : StatusBarConfig) (s : StatusBarState) : StatusBarInfo :=
  match s with
  | Started => started_ o
  | Spinning => spinning_ o
  | Stopped => stopped_ o
  end.

Definition _updateInfo (sb : t) : t :=
  let config := config (opt sb) (state sb) in
  let i := _statusBar sb in
  {| opt := opt sb;
     state := state sb;
     _statusBar :=
       {| item_priority := item_priority i;
          item_text := text config;
          item_tooltip := tooltip config;
          item_command := command config;
          item_color := color config;
          item_backgroundColor := backgroundColor config;
          item_shown := item_shown i;
          item_disposed := item_disposed i |} |}.

Definition show (i : StatusBarItem) : StatusBarItem :=
  {| item_priority := item_priority i;
     item_text := item_text i;
     item_tooltip := item_tooltip i;
     item_command := item_command i;
     item_color := item_color i;
     item_backgroundColor := item_backgroundColor i;
     item_shown := true;
     item_disposed := item_disposed i |}.

Definition createStatusBarItem (p : option Z) : StatusBarItem :=
  {| item_priority := p;
     item_text := "";
     item_tooltip := None;
     item_command := None;
     item_color := None;
     item_backgroundColor := None;
     item_shown := false;
     item_disposed := false |}.

Definition new (o : StatusBarConfig) : t :=
  let sb := {| opt := o; state := Stopped;
               _statusBar := createStatusBarItem (priority o) |} in
  let sb := _updateInfo sb in
  {| opt := opt sb; state := state sb; _statusBar := show (_statusBar sb) |}.

Definition setState (s : StatusBarState) (sb : t) : t :=
  {| opt := opt sb; state := s; _statusBar := _statusBar sb |}.

Definition started (sb : t) : t := _updateInfo (setState Started sb).
Definition spinning (sb : t) : t := _updateInfo (setState Spinning sb).
Definition stopped (sb : t) : t := _updateInfo (setState Stopped sb).

Definition dispose (sb : t) : t :=
  let i := _statusBar sb in
  {| opt := opt sb;
     state := state sb;
     _statusBar :=
       {| item_priority := item_priority i;
          item_text := item_text i;
          item_tooltip := item_tooltip i;
          item_command := item_command i;
          item_color := item_color i;
          item_backgroundColor := item_backgroundColor i;
          item_shown := item_shown i;
          item_disposed := true |} |}.

(** The badge shows the appearance configured for state [s]. *)
Definition shows (s : StatusBarState) (sb : t) : Prop :=
  state sb = s /\
  item_text (_statusBar sb) = text (config (opt sb) s) /\
  item_tooltip (_statusBar sb) = tooltip (config (opt sb) s) /\
  item_command (_statusBar sb) = command (config (opt sb) s) /\
  item_color (_statusBar sb) = color (config (opt sb) s) /\
  item_backgroundColor (_statusBar sb) = backgroundColor (config (opt sb) s).

End StatusBar.

(** ** Disposables, collaborator calls and suspension points *)

(** The three kinds of [Disposable] the class holds. *)
Inductive Disposable :=
| Listener (id : nat) (on : Vscode.Notification)
    (* returned by tasks.onDidEndTask, window.onDidCloseTerminal,
       window.onDidChangeActiveTextEditor *)
| TerminalHandle (t : Vscode.Terminal)
    (* an adopted terminal; a vscode Terminal is itself a Disposable *)
| ExecutionHandle (execution : nat).
    (* { dispose() { execution.terminate() } } *)

(** Calls the class makes to its collaborators, in the order made.
    [logger.info] and [console.warn] change nothing and are left out. *)
Inductive Effect :=
| getStartCommand            (* getStartCommand() / getStartServerCommand() *)
| resolveUrl (uri : option string)
| executeTask (name commandLine : string)
| executeCommand (command url : string)
                 (viewColumn : Vscode.ViewColumn) (preserveFocus : bool)
| fetch (url : string)
| sleep (ms : Z)
| disposed (d : Disposable).

Record SimpleServerOptions := {
  taskName : string;
  autoStart : option bool;
  statusBar_ : option StatusBar.StatusBarConfig;   (* opt.statusBar *)
  checkTimeout : option Z                          (* part_000 only *)
}.

Record SimpleServer := {
  _disposables : list Disposable;
  editorChangeListener : option Disposable;
  taskHandler : option Disposable;
  currentUrl : option string;
  serverStarted : option bool;
  statusBar : option StatusBar.t
}.

(** Where an asynchronous call of the class can be suspended: one
    constructor per [await]. *)
Inductive Suspended :=
| start_getStartCommand     (* _startTask: await this.opt.getStartCommand() *)
| start_executeTask         (* _startTask: await tasks.executeTask(task) *)
| start_startTask           (* start: await this._startTask(), once it returned *)
| start_resolveUrl          (* start: await this.opt.resolveUrl() *)
| start_fetch (url : string) (maxTime : Z)   (* _detectServer: await fetch(url) *)
| start_sleep (url : string) (maxTime : Z)   (* _detectServer: await sleep(500) *)
| start_detectServer (result : bool)
    (* start: await this._detectServer(rootUrl), once it returned [result] *)
| navigate_resolveUrl (uri : string).
    (* _navigateCurrentPage: await this.opt.resolveUrl(uri) *)

(** How the host settles an awaited promise. *)
Inductive Value := Undefined | Str (s : string) | Execution (e : nat).
Inductive Settled := Fulfilled (v : Value) | Rejected.

(** The controller together with what the host keeps for it. *)
Record Machine := {
  this : SimpleServer;
  listeners : list (nat * Vscode.Notification);  (* live registrations *)
  nextId : nat;
  calls : list Effect;                           (* oldest first *)
  pending : list Suspended                       (* calls in flight *)
}.

Definition with_this (f : SimpleServer -> SimpleServer) (m : Machine) : Machine :=
  {| this := f (this m); listeners := listeners m; nextId := nextId m;
     calls := calls m; pending := pending m |}.

Definition call (e : Effect) (m : Machine) : Machine :=
  {| this := this m; listeners := listeners m; nextId := nextId m;
     calls := calls m ++ [e]; pending := pending m |}.

Definition suspend (k : Suspended) (m : Machine) : Machine :=
  {| this := this m; listeners := listeners m; nextId := nextId m;
     calls := calls m; pending := pending m ++ [k] |}.

Definition set_pending (p : list Suspended) (m : Machine) : Machine :=
  {| this := this m; listeners := listeners m; nextId := nextId m;
     calls := calls m; pending := p |}.

Definition set__disposables v (s : SimpleServer) : SimpleServer :=
  {| _disposables := v; editorChangeListener := editorChangeListener s;
     taskHandler := taskHandler s; currentUrl := currentUrl s;
     serverStarted := serverStarted s; statusBar := statusBar s |}.

Definition set_editorChangeListener v (s : SimpleServer) : SimpleServer :=
  {| _disposables := _disposables s; editorChangeListener := v;
     taskHandler := taskHandler s; currentUrl := currentUrl s;
     serverStarted := serverStarted s; statusBar := statusBar s |}.

Definition set_taskHandler v (s : SimpleServer) : SimpleServer :=
  {| _disposables := _disposables s; editorChangeListener := editorChangeListener s;
     taskHandler := v; currentUrl := currentUrl s;
     serverStarted := serverStarted s; statusBar := statusBar s |}.

Definition set_currentUrl v (s : SimpleServer) : SimpleServer :=
  {| _disposables := _disposables s; editorChangeListener := editorChangeListener s;
     taskHandler := taskHandler s; currentUrl := v;
     serverStarted := serverStarted s; statusBar := statusBar s |}.

Definition set_serverStarted v (s : SimpleServer) : SimpleServer :=
  {| _disposables := _disposables s; editorChangeListener := editorChangeListener s;
     taskHandler := taskHandler s; currentUrl := currentUrl s;
     serverStarted := v; statusBar := statusBar s |}.

Definition set_statusBar v (s : SimpleServer) : SimpleServer :=
  {| _disposables := _disposables s; editorChangeListener := editorChangeListener s;
     taskHandler := taskHandler s; currentUrl := currentUrl s;
     serverStarted := serverStarted s; statusBar := v |}.

(** [this.statusBar?.f()] *)
Definition statusBar_call (f : StatusBar.t -> StatusBar.t) (s : SimpleServer)
  : SimpleServer :=
  match statusBar s with
  | Some sb => set_statusBar (Some (f sb)) s
  | None => s
  end.

Definition same_listener (a b : nat * Vscode.Notification) : bool :=
  (fst a =? fst b)%nat && Vscode.Notification_eqb (snd a) (snd b).

(** [d.dispose()]: the call is recorded; a listener is also taken out of
    the host's registrations. *)
Definition dispose_ (d : Disposable) (m : Machine) : Machine :=
  let m := call (disposed d) m in
  match d with
  | Listener id on =>
      {| this := this m;
         listeners := filter (fun l => negb (same_listener l (id, on))) (listeners m);
         nextId := nextId m; calls := calls m; pending := pending m |}
  | _ => m
  end.

(** [x?.dispose()] *)
Definition dispose_opt (d : option Disposable) (m : Machine) : Machine :=
  match d with Some d => dispose_ d m | None => m end.

(** Registering a listener returns a fresh disposable. *)
Definition subscribe (on : Vscode.Notification) (m : Machine)
  : Disposable * Machine :=
  let id := nextId m in
  (Listener id on,
   {| this := this m; listeners := listeners m ++ [(id, on)];
      nextId := S id; calls := calls m; pending := pending m |}).

(** The session state of the specification, read off [serverStarted]:
    [stop] writes undefined, the entry of [start] writes false, and
    [start] later writes true. *)
Inductive SessionState := Stopped | Spinning | Started.

Definition sessionState (s : SimpleServer) : SessionState :=
  match serverStarted s with
  | None => Stopped
  | Some false => Spinning
  | Some true => Started
  end.

(** ** The methods of SimpleServer *)
Section Controller.

Variable rev : Revision.
Variable opt : SimpleServerOptions.

(** get isStarted() { return !!this.editorChangeListener } *)
Definition isStarted (s : SimpleServer) : bool :=
  isSome (editorChangeListener s).

Definition _addDisposable (d : Disposable) (m : Machine) : Machine :=
  with_this (fun s => set__disposables (_disposables s ++ [d]) s) m.

Definition stop (m : Machine) : Machine :=
  let m := dispose_opt (editorChangeListener (this m)) m in
  let m := with_this (set_editorChangeListener None) m in
  let m := dispose_opt (taskHandler (this m)) m in
  let m := with_this (set_taskHandler None) m in
  let m := with_this (set_currentUrl None) m in
  let m := with_this (set_serverStarted None) m in
  with_this (statusBar_call StatusBar.stopped) m.

(** !!window.tabGroups.all.find((group) =>
      group.tabs.find((t) => t.label === 'Simple Browser')) *)
Definition hasSimpleBrowserOpened (env : Vscode.Env) : bool :=
  isSome
    (find (fun group =>
             isSome (find (fun t => Vscode.label t =? "Simple Browser")
                          (Vscode.tabs group)))
          (Vscode.tabGroups env)).

(** Up to its only [await]; nothing of the controller changes after it
    (Part000Logger catches a rejection of the command there, the other
    two revisions let it escape to a caller that does not await). *)
Definition _openUrl (url : string) (env : Vscode.Env) (m : Machine) : Machine :=
  let hasSimpleBrowserOpened := hasSimpleBrowserOpened env in
  if strictEqStr (currentUrl (this m)) url && hasSimpleBrowserOpened then m
  else
    let m :=
      if truthyBool (serverStarted (this m))
      then with_this (set_currentUrl (Some url)) m
      else m in
    call (executeCommand "simpleBrowser.api.open" url Vscode.Beside true) m.

(** Up to [await this.opt.resolveUrl(uri)]. *)
Definition _navigateCurrentPage (env : Vscode.Env) (m : Machine) : Machine :=
  match Vscode.activeTextEditor env with
  | None => m
  | Some editor =>
      let uri := Vscode.uri editor in
      let inFolder :=
        match rev with
        | SimpleServerTs => isSome (Vscode.workspaceFolder editor)
        | _ => true
        end in
      if inFolder
      then suspend (navigate_resolveUrl uri) (call (resolveUrl (Some uri)) m)
      else m
  end.

(** The rest of [_navigateCurrentPage] once [resolveUrl(uri)] settled. *)
Definition _navigateCurrentPage_resolved (url : option string)
           (env : Vscode.Env) (m : Machine) : Machine :=
  match rev with
  | SimpleServerTs =>
      match url with Some url => _openUrl url env m | None => m end
  | _ =>
      match url with
      | Some u => if truthyStr url then _openUrl u env m else m
      | None => m
      end
  end.

(** 15 * 1000, or this.opt.checkTimeout ?? 10_000 *)
Definition timeout : Z :=
  match rev with
  | SimpleServerTs => 15 * 1000
  | _ => match checkTimeout opt with Some t => t | None => 10000 end
  end.

(** The value returned after the [while] loop. *)
Definition afterLoop : bool :=
  match rev with SimpleServerTs => false | _ => true end.

(** The test of the [while] loop of [_detectServer] and what follows it
    up to the next [await]. *)
Definition _detectServer_loop (url : string) (maxTime now : Z) (m : Machine)
  : Suspended * Machine :=
  if (now <? maxTime)%Z
  then (start_fetch url maxTime, call (fetch url) m)
  else (start_detectServer afterLoop, m).

Definition _detectServer (url : string) (env : Vscode.Env) (m : Machine)
  : Suspended * Machine :=
  let now := Vscode.now env in
  let maxTime := (now + timeout)%Z in
  _detectServer_loop url maxTime now m.

(** Up to the first [await] of [_startTask], or to its return. *)
Definition _startTask (env : Vscode.Env) (m : Machine) : Suspended * Machine :=
  let m :=
    match rev with
    | Part000Logger => with_this (set_currentUrl None) m
    | _ => m
    end in
  let existsTask :=
    find (fun t => Vscode.name t =? taskName opt) (Vscode.terminals env) in
  match existsTask with
  | Some t =>
      match Vscode.exitStatus t with
      | None =>
          (start_startTask, with_this (set_taskHandler (Some (TerminalHandle t))) m)
      | Some _ => (start_getStartCommand, call getStartCommand m)
      end
  | None => (start_getStartCommand, call getStartCommand m)
  end.

Definition start (env : Vscode.Env) (m : Machine) : Machine :=
  if isStarted (this m) then m
  else
    let m := with_this (set_serverStarted (Some false)) m in
    let m := with_this (statusBar_call StatusBar.spinning) m in
    let '(l, m) := subscribe Vscode.onDidChangeActiveTextEditor m in
    let m := with_this (set_editorChangeListener (Some l)) m in
    let '(k, m) := _startTask env m in
    suspend k m.

(** The last two statements of [start]. *)
Definition start_finish (env : Vscode.Env) (m : Machine) : Machine :=
  let m := _navigateCurrentPage env m in
  with_this (statusBar_call StatusBar.started) m.

(** One suspended call is resumed and runs to its next [await] ([Some])
    or to its end ([None]).  A settlement of the wrong shape for the
    awaited promise leaves everything as it is; the two awaits on the
    class's own async methods do not look at the settlement. *)
Definition resume (k : Suspended) (r : Settled) (env : Vscode.Env) (m : Machine)
  : option Suspended * Machine :=
  match k, r with
  | start_getStartCommand, Fulfilled (Str commandLine) =>
      (Some start_executeTask, call (executeTask (taskName opt) commandLine) m)
  | start_getStartCommand, Rejected => (None, m)
  | start_executeTask, Fulfilled (Execution execution) =>
      (Some start_startTask,
       with_this (set_taskHandler (Some (ExecutionHandle execution))) m)
  | start_executeTask, Rejected => (None, m)
  | start_startTask, _ =>
      let m :=
        match rev with
        | SimpleServerTs => m
        | _ => with_this (set_serverStarted (Some true)) m
        end in
      (Some start_resolveUrl, call (resolveUrl None) m)
  | start_resolveUrl, Fulfilled (Str rootUrl) =>
      match rev with
      | SimpleServerTs =>
          let '(k, m) := _detectServer rootUrl env m in (Some k, m)
      | _ =>
          if truthyStr (Some rootUrl)
          then let '(k, m) := _detectServer rootUrl env m in (Some k, m)
          else (None, start_finish env m)
      end
  | start_resolveUrl, Fulfilled Undefined =>
      match rev with
      | SimpleServerTs => (Some k, m)
      | _ => (None, start_finish env m)
      end
  | start_resolveUrl, Rejected => (None, m)
  | start_fetch url maxTime, Fulfilled _ => (Some (start_detectServer true), m)
  | start_fetch url maxTime, Rejected =>
      (Some (start_sleep url maxTime), call (sleep 500) m)
  | start_sleep url maxTime, Fulfilled _ =>
      let now := Vscode.now env in
      let '(k, m) := _detectServer_loop url maxTime now m in (Some k, m)
  | start_detectServer result, _ =>
      let m :=
        match rev with
        | SimpleServerTs => with_this (set_serverStarted (Some result)) m
        | _ => m
        end in
      (None, start_finish env m)
  | navigate_resolveUrl uri, Fulfilled (Str url) =>
      (None, _navigateCurrentPage_resolved (Some url) env m)
  | navigate_resolveUrl uri, Fulfilled Undefined =>
      match rev with
      | SimpleServerTs => (Some k, m)
      | _ => (None, _navigateCurrentPage_resolved None env m)
      end
  | navigate_resolveUrl uri, Rejected => (None, m)
  | _, _ => (Some k, m)
  end.

Definition toggle (env : Vscode.Env) (m : Machine) : Machine :=
  if isStarted (this m) then stop m else start env m.

Definition dispose (m : Machine) : Machine :=
  let m := stop m in
  let m := with_this (statusBar_call StatusBar.dispose) m in
  fold_left (fun m i => dispose_ i m) (_disposables (this m)) m.

(** The two listeners registered by the constructor. *)
Definition onDidEndTask_listener (name : string) (m : Machine) : Machine :=
  if name =? taskName opt then stop m else m.

Definition onDidCloseTerminal_listener (name : string) (m : Machine) : Machine :=
  if name =? taskName opt then stop m else m.

Definition empty : Machine :=
  {| this := {| _disposables := []; editorChangeListener := None;
                taskHandler := None; currentUrl := None;
                serverStarted := None; statusBar := None |};
     listeners := []; nextId := 0; calls := []; pending := [] |}.

Definition constructor_statusBar (m : Machine) : Machine :=
  match statusBar_ opt with
  | Some cfg => with_this (set_statusBar (Some (StatusBar.new cfg))) m
  | None => m
  end.

Definition constructor_listeners (m : Machine) : Machine :=
  let '(d, m) := subscribe Vscode.onDidEndTask m in
  let m := _addDisposable d m in
  let '(d, m) := subscribe Vscode.onDidCloseTerminal m in
  _addDisposable d m.

Definition constructor_autoStart (env : Vscode.Env) (m : Machine) : Machine :=
  if truthyBool (autoStart opt) then start env m else m.

(** new SimpleServer(opt) *)
Definition new (env : Vscode.Env) : Machine :=
  match rev with
  | SimpleServerTs =>
      constructor_statusBar
        (constructor_autoStart env (constructor_listeners empty))
  | _ =>
      constructor_autoStart env
        (constructor_listeners (constructor_statusBar empty))
  end.

(** *** Events and runs *)

Inductive Event :=
| call_start
| call_stop
| call_toggle
| call_dispose
| didEndTask (name : string)        (* e.execution.task.name *)
| didCloseTerminal (name : string)  (* e.name *)
| didChangeActiveTextEditor
| settle (i : nat) (r : Settled).   (* the i-th suspended call is resumed *)

(** The host runs the callbacks still registered for a notification. *)
Definition notify (on : Vscode.Notification) (handler : Machine -> Machine)
           (m : Machine) : Machine :=
  fold_left (fun m _ => handler m)
            (filter (fun l => Vscode.Notification_eqb (snd l) on) (listeners m))
            m.

Fixpoint replace_at (i : nat) (k : option Suspended) (p : list Suspended)
  : list Suspended :=
  match p, i with
  | [], _ => []
  | _ :: p, O => match k with Some k => k :: p | None => p end
  | x :: p, S i => x :: replace_at i k p
  end.

Definition step (env : Vscode.Env) (ev : Event) (m : Machine) : Machine :=
  match ev with
  | call_start => start env m
  | call_stop => stop m
  | call_toggle => toggle env m
  | call_dispose => dispose m
  | didEndTask name => notify Vscode.onDidEndTask (onDidEndTask_listener name) m
  | didCloseTerminal name =>
      notify Vscode.onDidCloseTerminal (onDidCloseTerminal_listener name) m
  | didChangeActiveTextEditor =>
      notify Vscode.onDidChangeActiveTextEditor (_navigateCurrentPage env) m
  | settle i r =>
      match nth_error (pending m) i with
      | None => m
      | Some k =>
          let '(k', m') := resume k r env m in
          set_pending (replace_at i k' (pending m')) m'
      end
  end.

Fixpoint run (evs : list (Vscode.Env * Event)) (m : Machine) : Machine :=
  match evs with
  | [] => m
  | (env, ev) :: evs => run evs (step env ev m)
  end.


End Controller.

(** ** Vocabulary of the statements *)

(** A tab labelled 'Simple Browser' is open in some tab group. *)
Definition previewTabOpen (env : Vscode.Env) : Prop :=
  exists group t,
    In group (Vscode.tabGroups env) /\ In t (Vscode.tabs group) /\
    Vscode.label t = "Simple Browser".

(** The open-preview command as [_openUrl] issues it. *)
Definition openPreview (url : string) : Effect :=
  executeCommand "simpleBrowser.api.open" url Vscode.Beside true.

(** The status indicator, when the controller has one, shows [s]. *)
Definition indicator (s : StatusBar.StatusBarState) (c : SimpleServer) : Prop :=
  match statusBar c with
  | Some sb => StatusBar.shows s sb
  | None => True
  end.

(** The controller [c] has an indicator exactly if [c0] has one: it is
    the same widget under the same configuration, and it shows [s]. *)
Definition indicator_kept (s : StatusBar.StatusBarState) (c0 c : SimpleServer)
  : Prop :=
  match statusBar c0, statusBar c with
  | Some sb0, Some sb =>
      StatusBar.shows s sb /\
      StatusBar.opt sb = StatusBar.opt sb0 /\
      StatusBar.item_priority (StatusBar._statusBar sb)
        = StatusBar.item_priority (StatusBar._statusBar sb0) /\
      StatusBar.item_shown (StatusBar._statusBar sb)
        = StatusBar.item_shown (StatusBar._statusBar sb0) /\
      StatusBar.item_disposed (StatusBar._statusBar sb)
        = StatusBar.item_disposed (StatusBar._statusBar sb0)
  | None, None => True
  | _, _ => False
  end.


(** The editor-change subscription is present exactly when the session
    state is not Stopped. *)
Definition listener_iff_not_Stopped (c : SimpleServer) : Prop :=
  editorChangeListener c <> None <-> sessionState c <> Stopped.

(** ** Sample configuration and host states *)

Definition info (s : string) : StatusBar.StatusBarInfo :=
  {| StatusBar.text := s; StatusBar.tooltip := None; StatusBar.command := None;
     StatusBar.color := None; StatusBar.backgroundColor := None |}.

Definition badge : StatusBar.StatusBarConfig :=
  {| StatusBar.priority := None;
     StatusBar.started_ := info "started";
     StatusBar.spinning_ := info "spinning";
     StatusBar.stopped_ := info "stopped" |}.

Definition dev : SimpleServerOptions :=
  {| taskName := "dev"; autoStart := None;
     statusBar_ := Some badge; checkTimeout := None |}.

Definition dev_auto : SimpleServerOptions :=
  {| taskName := "dev"; autoStart := Some true;
     statusBar_ := Some badge; checkTimeout := None |}.

Definition running : Vscode.Terminal :=
  {| Vscode.terminalId := 1; Vscode.name := "dev"; Vscode.exitStatus := None |}.

Definition exited : Vscode.Terminal :=
  {| Vscode.terminalId := 0; Vscode.name := "dev"; Vscode.exitStatus := Some 1%Z |}.

Definition page_a : Vscode.TextEditor :=
  {| Vscode.uri := "/w/a.md"; Vscode.workspaceFolder := Some "/w" |}.

Definition preview : Vscode.TabGroup :=
  {| Vscode.tabs := [ {| Vscode.label := "Simple Browser" |} ] |}.

(** An empty window at time [t]. *)
Definition quiet (t : Z) : Vscode.Env :=
  {| Vscode.terminals := []; Vscode.tabGroups := [];
     Vscode.activeTextEditor := None; Vscode.now := t |}.

(** A window editing a.md, with the given terminals and tab groups. *)
Definition editing (ts : list Vscode.Terminal) (gs : list Vscode.TabGroup)
  : Vscode.Env :=
  {| Vscode.terminals := ts; Vscode.tabGroups := gs;
     Vscode.activeTextEditor := Some page_a; Vscode.now := 0 |}.

(** A task is launched and [start] has come to its end. *)
Definition launch : list (Vscode.Env * Event) :=
  [ (quiet 0, call_start);
    (quiet 0, settle 0 (Fulfilled (Str "npm run dev")));
    (quiet 0, settle 0 (Fulfilled (Execution 7)));
    (quiet 0, settle 0 (Fulfilled Undefined));
    (quiet 0, settle 0 (Fulfilled (Str "http://x")));
    (quiet 0, settle 0 (Fulfilled Undefined));
    (quiet 0, settle 0 (Fulfilled Undefined)) ].

(** The endpoint never answers: every probe is rejected at once and every
    [sleep(500)] lasts 500 ms; [n] rounds starting at time [t]. *)
Fixpoint unanswered_events (n : nat) (t : Z) : list (Vscode.Env * Event) :=
  match n with
  | O => []
  | S n =>
      (quiet t, settle 0 Rejected)
        :: (quiet (t + 500), settle 0 (Fulfilled Undefined))
        :: unanswered_events n (t + 500)
  end.


(** [stop] arrives while [start] waits for the command provider; the
    overtaken [start] is then resumed up to its [await this._startTask()]. *)
Definition overtaken : list (Vscode.Env * Event) :=
  [ (quiet 0, call_start);
    (quiet 0, call_stop);
    (quiet 0, settle 0 (Fulfilled (Str "npm run dev")));
    (quiet 0, settle 0 (Fulfilled (Execution 7))) ].

(** The overtaken [start] runs on to its end, the server answers the
    first probe, and the navigation it triggers opens a.md's URL. *)
Definition overtaken_rest : list (Vscode.Env * Event) :=
  [ (quiet 0, settle 0 (Fulfilled Undefined));
    (quiet 0, settle 0 (Fulfilled (Str "http://x")));
    (quiet 0, settle 0 (Fulfilled Undefined));
    (editing [running] [], settle 0 (Fulfilled Undefined));
    (editing [running] [preview], settle 0 (Fulfilled (Str "http://x/a"))) ].

(** A new session: [start] adopts the running terminal, the server
    answers the first probe, and a.md resolves to the same URL. *)
Definition fresh_session : list (Vscode.Env * Event) :=
  [ (editing [running] [preview], call_start);
    (editing [running] [preview], settle 0 (Fulfilled Undefined));
    (editing [running] [preview], settle 0 (Fulfilled (Str "http://x")));
    (editing [running] [preview], settle 0 (Fulfilled Undefined));
    (editing [running] [preview], settle 0 (Fulfilled Undefined));
    (editing [running] [preview], settle 0 (Fulfilled (Str "http://x/a"))) ].

(** How often the open-preview command was issued. *)
Definition opened (m : Machine) : nat :=
  length (filter (fun e => match e with executeCommand _ _ _ _ => true | _ => false end)
                 (calls m)).

(** ** The readiness poll against a silent endpoint *)

(** The host resumes a suspended poll for an endpoint that never answers:
    the [i]-th probe is rejected after [latency i] ms and every
    [sleep(500)] lasts 500 ms.  The result is what [_detectServer]
    returned, the number of probes, the time of return and the machine. *)
Fixpoint unanswered (rev : Revision) (opt : SimpleServerOptions)
         (latency : nat -> Z) (fuel : nat) (i : nat) (clock : Z)
         (k : Suspended) (m : Machine) : option (bool * nat * Z * Machine) :=
  match k, fuel with
  | start_detectServer result, _ => Some (result, i, clock, m)
  | start_fetch _ _, S fuel =>
      let clock := (clock + latency i)%Z in
      match resume rev opt k Rejected (quiet clock) m with
      | (Some k', m') => unanswered rev opt latency fuel (S i) clock k' m'
      | (None, _) => None
      end
  | start_sleep _ _, S fuel =>
      let clock := (clock + 500)%Z in
      match resume rev opt k (Fulfilled Undefined) (quiet clock) m with
      | (Some k', m') => unanswered rev opt latency fuel i clock k' m'
      | (None, _) => None
      end
  | _, _ => None
  end.

(** The calls made by [n] rounds of the poll. *)
Fixpoint rounds (url : string) (n : nat) : list Effect :=
  match n with
  | O => []
  | S n => fetch url :: sleep 500 :: rounds url n
  end.

(** ** Sessions and wiring *)

(** The machine states of the session that [new] started, up to the
    first moment the editor-change subscription is gone. *)
Inductive auto_session (rev : Revision) (opt : SimpleServerOptions)
          (env0 : Vscode.Env) : Machine -> Prop :=
| auto_new : auto_session rev opt env0 (new rev opt env0)
| auto_step m env ev :
    auto_session rev opt env0 m ->
    isStarted (this (step rev opt env ev m)) = true ->
    auto_session rev opt env0 (step rev opt env ev m).

(** What the indicator's state is, if there is an indicator. *)
Definition indicatorState (c : SimpleServer) : option StatusBar.StatusBarState :=
  match statusBar c with
  | Some sb => Some (StatusBar.state sb)
  | None => None
  end.

Definition is_call_dispose (ev : Event) : bool :=
  match ev with call_dispose => true | _ => false end.

(** The registrations of the host for one notification. *)
Definition registered (on : Vscode.Notification) (m : Machine)
  : list (nat * Vscode.Notification) :=
  filter (fun l => Vscode.Notification_eqb (snd l) on) (listeners m).

(** The constructor's two listeners are registered, once each, and the
    controller's two handles are not among them. *)
Definition wired (m : Machine) : Prop :=
  registered Vscode.onDidEndTask m = [(0, Vscode.onDidEndTask)] /\
  registered Vscode.onDidCloseTerminal m = [(1, Vscode.onDidCloseTerminal)] /\
  _disposables (this m) =
    [Listener 0 Vscode.onDidEndTask; Listener 1 Vscode.onDidCloseTerminal] /\
  (forall d, editorChangeListener (this m) = Some d ->
             exists id, d = Listener id Vscode.onDidChangeActiveTextEditor) /\
  (forall d, taskHandler (this m) = Some d ->
             forall id on, d <> Listener id on).

(** ** Progress of an undisturbed start *)



(** A task is launched and the poll gets no answer for three rounds;
    meanwhile the user turns to a.md, whose URL is resolved and opened. *)
Definition silent : list (Vscode.Env * Event) :=
  [ (quiet 0, call_start);
    (quiet 0, settle 0 (Fulfilled (Str "npm run dev")));
    (quiet 0, settle 0 (Fulfilled (Execution 7)));
    (quiet 0, settle 0 (Fulfilled Undefined));
    (quiet 0, settle 0 (Fulfilled (Str "http://x"))) ]
  ++ unanswered_events 3 0
  ++ [ (editing [running] [], didChangeActiveTextEditor);
       (editing [running] [], settle 1 (Fulfilled (Str "http://x/a"))) ].

(** ** Vocabulary of the further properties *)

(** The calls a user of [StatusBar] can make. *)
Inductive BadgeCall := to_started | to_spinning | to_stopped | to_dispose.

Definition badge_call (c : BadgeCall) (sb : StatusBar.t) : StatusBar.t :=
  match c with
  | to_started => StatusBar.started sb
  | to_spinning => StatusBar.spinning sb
  | to_stopped => StatusBar.stopped sb
  | to_dispose => StatusBar.dispose sb
  end.

Definition badge_calls (cs : list BadgeCall) (sb : StatusBar.t) : StatusBar.t :=
  fold_left (fun sb c => badge_call c sb) cs sb.

(** The state named by the last of the three setters in [cs]. *)
Definition last_state (cs : list BadgeCall) (s : StatusBar.StatusBarState)
  : StatusBar.StatusBarState :=
  fold_left (fun s c =>
               match c with
               | to_started => StatusBar.Started
               | to_spinning => StatusBar.Spinning
               | to_stopped => StatusBar.Stopped
               | to_dispose => s
               end) cs s.

Definition is_to_dispose (c : BadgeCall) : bool :=
  match c with to_dispose => true | _ => false end.

(** The registration the controller's editor-change subscription stands
    for. *)
Definition editor_listeners (c : SimpleServer) : list (nat * Vscode.Notification) :=
  match editorChangeListener c with
  | Some (Listener id Vscode.onDidChangeActiveTextEditor) =>
      [(id, Vscode.onDidChangeActiveTextEditor)]
  | _ => []
  end.

(** The host holds no registration the controller has lost track of. *)
Definition tidy (m : Machine) : Prop :=
  _disposables (this m) =
    [Listener 0 Vscode.onDidEndTask; Listener 1 Vscode.onDidCloseTerminal] /\
  (registered Vscode.onDidEndTask m = [(0, Vscode.onDidEndTask)] \/
   registered Vscode.onDidEndTask m = []) /\
  (registered Vscode.onDidCloseTerminal m = [(1, Vscode.onDidCloseTerminal)] \/
   registered Vscode.onDidCloseTerminal m = []) /\
  registered Vscode.onDidChangeActiveTextEditor m = editor_listeners (this m) /\
  (forall d, editorChangeListener (this m) = Some d ->
             exists id, d = Listener id Vscode.onDidChangeActiveTextEditor) /\
  (forall d, taskHandler (this m) = Some d ->
             forall id on, d <> Listener id on).



(** What every call to a collaborator looks like. *)
Definition well_formed (opt : SimpleServerOptions) (e : Effect) : Prop :=
  match e with
  | executeTask name _ => name = taskName opt
  | executeCommand command _ viewColumn preserveFocus =>
      command = "simpleBrowser.api.open" /\
      viewColumn = Vscode.Beside /\ preserveFocus = true
  | sleep ms => ms = 500%Z
  | _ => True
  end.

(** The disposables [stop] finds in the controller, in the order it
    disposes them. *)
Definition held (c : SimpleServer) : list Disposable :=
  match editorChangeListener c with Some d => [d] | None => [] end
  ++ match taskHandler c with Some d => [d] | None => [] end.

(** Whether [start] issues a first probe once the root URL is known. *)
Definition probes (rev : Revision) (opt : SimpleServerOptions) (rootUrl : string)
  : bool :=
  match rev with
  | SimpleServerTs => true
  | _ => negb (rootUrl =? "") && (0 <? timeout rev opt)%Z
  end.

(** The first terminal named [taskName] is there and has not exited. *)
Definition adoptable (opt : SimpleServerOptions) (env : Vscode.Env) : bool :=
  match find (fun t => Vscode.name t =? taskName opt) (Vscode.terminals env) with
  | Some t => negb (isSome (Vscode.exitStatus t))
  | None => false
  end.

(** The controller has an indicator exactly if one is configured: a
    shown widget of the configured priority that shows the appearance
    configured for its state. *)
Definition configured_indicator (opt : SimpleServerOptions) (c : SimpleServer)
  : Prop :=
  match statusBar_ opt, statusBar c with
  | Some cfg, Some sb =>
      StatusBar.opt sb = cfg /\
      StatusBar.shows (StatusBar.state sb) sb /\
      StatusBar.item_priority (StatusBar._statusBar sb) = StatusBar.priority cfg /\
      StatusBar.item_shown (StatusBar._statusBar sb) = true
  | None, None => True
  | _, _ => False
  end.

(** * Properties *)

Lemma strictEqStr_true (a : option string) (b : string) :
  strictEqStr a b = true <-> a = Some b.
Proof.
  destruct a as [s|]; cbn.
  - rewrite String.eqb_eq. split; congruence.
  - split; discriminate.
Qed.

Lemma hasSimpleBrowserOpened_spec (env : Vscode.Env) :
  hasSimpleBrowserOpened env = true <-> previewTabOpen env.
Proof.
  unfold hasSimpleBrowserOpened, previewTabOpen, isSome. split.
  - destruct (find _ (Vscode.tabGroups env)) as [g|] eqn:E; [|discriminate].
    intros _. apply find_some in E. destruct E as [Hg E].
    destruct (find _ (Vscode.tabs g)) as [t|] eqn:E'; [|discriminate].
    apply find_some in E'. destruct E' as [Ht E'].
    exists g, t. repeat split; auto. now apply String.eqb_eq.
  - intros (g & t & Hg & Ht & Hl).
    destruct (find _ (Vscode.tabGroups env)) as [g'|] eqn:E; [reflexivity|].
    exfalso. eapply find_none in E; eauto. cbn in E.
    destruct (find _ (Vscode.tabs g)) as [t'|] eqn:E'; [discriminate|].
    eapply find_none in E'; eauto. cbn in E'. apply String.eqb_neq in E'. auto.
Qed.

(** *** stop *)

Lemma stop_fields (m : Machine) :
  editorChangeListener (this (stop m)) = None /\
  taskHandler (this (stop m)) = None /\
  currentUrl (this (stop m)) = None /\
  serverStarted (this (stop m)) = None /\
  indicator StatusBar.Stopped (this (stop m)).
Proof.
  destruct m as [[ds l h u s sb] ls n cs p].
  destruct l as [[]|], h as [[]|], sb; cbn; unfold indicator, StatusBar.shows;
    cbn; intuition reflexivity.
Qed.

Lemma stop_stop (m : Machine) : stop (stop m) = stop m.
Proof.
  destruct m as [[ds l h u s sb] ls n cs p].
  destruct l as [[]|], h as [[]|], sb; reflexivity.
Qed.

Lemma stop_this (m : Machine) :
  _disposables (this (stop m)) = _disposables (this m) /\
  editorChangeListener (this (stop m)) = None /\
  taskHandler (this (stop m)) = None.
Proof.
  destruct m as [[ds l h u s sb] ls n cs p].
  destruct l as [[]|], h as [[]|], sb; cbn; auto.
Qed.

Lemma stop_pending (m : Machine) :
  pending (stop m) = pending m /\ nextId (stop m) = nextId m.
Proof.
  destruct m as [[ds l h u s sb] ls n cs p].
  destruct l as [[]|], h as [[]|], sb; cbn; auto.
Qed.

Lemma stop_calls (m : Machine) :
  calls (stop m) = (calls m ++ map disposed (held (this m)))%list.
Proof.
  destruct m as [[ds l h u s sb] ls n cs p].
  destruct l as [[]|], h as [[]|], sb; cbn;
    rewrite <- ?app_assoc, ?app_nil_r; reflexivity.
Qed.

Lemma stop_statusBar (m : Machine) :
  statusBar (this (stop m)) = option_map StatusBar.stopped (statusBar (this m)).
Proof.
  destruct m as [[ds l h u s sb] ls n cs p].
  destruct l as [[]|], h as [[]|], sb; reflexivity.
Qed.

Lemma stop_indicator_kept (m : Machine) :
  indicator_kept StatusBar.Stopped (this m) (this (stop m)).
Proof.
  unfold indicator_kept. rewrite stop_statusBar.
  destruct (statusBar (this m)) as [sb|]; cbn; [|exact I].
  unfold StatusBar.shows; cbn. intuition reflexivity.
Qed.

Lemma stop_iter (m : Machine) (n : nat) : Nat.iter (S n) stop m = stop m.
Proof.
  induction n as [|n IH]; [reflexivity|].
  change (Nat.iter (S (S n)) stop m) with (stop (Nat.iter (S n) stop m)).
  rewrite IH. apply stop_stop.
Qed.

(** [stop] finds nothing to do in a controller that is stopped. *)
Lemma stop_stopped (m : Machine) :
  editorChangeListener (this m) = None ->
  taskHandler (this m) = None ->
  currentUrl (this m) = None ->
  serverStarted (this m) = None ->
  indicator StatusBar.Stopped (this m) ->
  stop m = m.
Proof.
  destruct m as [[ds l h u s sb] ls n cs p]. cbn.
  intros -> -> -> -> Hi. unfold indicator in Hi. cbn in Hi.
  destruct sb as [[o st [pr tx tt cm co bg sh di]]|]; [|reflexivity].
  unfold StatusBar.shows in Hi. cbn in Hi.
  destruct Hi as (-> & -> & -> & -> & -> & ->). reflexivity.
Qed.

(** C2.  [stop] contains no throw and guards each of its optional calls
    by [?.]; it maps every machine state to a machine state.  After any
    number [S n] of consecutive calls, from any state, both handles, the
    recorded URL and [serverStarted] are undefined and the session is
    Stopped.  The indicator is the one the controller had, with its
    configuration, priority, visibility and disposal as they were, and
    it shows the stopped appearance; a controller without indicator
    stays without.  The handles the controller held have been disposed
    once each, the constructor's disposables and the calls in flight are
    untouched, and the [S n] calls leave what the first of them leaves.
    One more [stop] changes nothing at all, and neither does a [stop] of
    a controller that is stopped already. *)
Theorem stop_idempotent (m : Machine) (n : nat) :
  let m' := Nat.iter (S n) stop m in
  editorChangeListener (this m') = None /\
  taskHandler (this m') = None /\
  currentUrl (this m') = None /\
  serverStarted (this m') = None /\
  sessionState (this m') = Stopped /\
  indicator StatusBar.Stopped (this m') /\
  indicator_kept StatusBar.Stopped (this m) (this m') /\
  statusBar (this m') = option_map StatusBar.stopped (statusBar (this m)) /\
  _disposables (this m') = _disposables (this m) /\
  calls m' = (calls m ++ map disposed (held (this m)))%list /\
  pending m' = pending m /\
  m' = stop m /\
  stop m' = m' /\
  (editorChangeListener (this m) = None ->
   taskHandler (this m) = None ->
   currentUrl (this m) = None ->
   serverStarted (this m) = None ->
   indicator StatusBar.Stopped (this m) ->
   m' = m /\ stop m = m).
Proof.
  intros m'. subst m'. rewrite stop_iter.
  destruct (stop_fields m) as (H1 & H2 & H3 & H4 & H5).
  split; [exact H1|]. split; [exact H2|]. split; [exact H3|]. split; [exact H4|].
  split; [unfold sessionState; now rewrite H4|].
  split; [exact H5|].
  split; [apply stop_indicator_kept|].
  split; [apply stop_statusBar|].
  split; [apply stop_this|].
  split; [apply stop_calls|].
  split; [apply stop_pending|].
  split; [reflexivity|].
  split; [apply stop_stop|].
  intros E1 E2 E3 E4 E5.
  assert (E : stop m = m) by now apply stop_stopped.
  split; exact E.
Qed.

Lemma stop_idempotent_witness :
  let m := new Part000Logger dev (quiet 0) in
  indicator StatusBar.Stopped (this m) /\
  Nat.iter 3 stop m = m.
Proof.
  intros m.
  assert (Hi : indicator StatusBar.Stopped (this m))
    by (unfold indicator, StatusBar.shows; cbn; intuition reflexivity).
  split; [exact Hi|].
  destruct (stop_idempotent m 2)
    as (_ & _ & _ & _ & _ & _ & _ & _ & _ & _ & _ & _ & _ & H).
  exact (proj1 (H eq_refl eq_refl eq_refl eq_refl Hi)).
Defined.

(** *** _openUrl *)

(** The test [this.currentUrl === url && hasSimpleBrowserOpened]. *)
Lemma dedup_test (url : string) (env : Vscode.Env) (m : Machine) :
  strictEqStr (currentUrl (this m)) url && hasSimpleBrowserOpened env = true <->
  currentUrl (this m) = Some url /\ previewTabOpen env.
Proof.
  rewrite andb_true_iff, strictEqStr_true, hasSimpleBrowserOpened_spec. tauto.
Qed.

(** Once [serverStarted] is true, every URL that is opened is recorded. *)
Lemma _openUrl_records (url : string) (env : Vscode.Env) (m : Machine) :
  serverStarted (this m) = Some true ->
  ~ (currentUrl (this m) = Some url /\ previewTabOpen env) ->
  currentUrl (this (_openUrl url env m)) = Some url.
Proof.
  intros Hs Hn. unfold _openUrl.
  destruct (strictEqStr (currentUrl (this m)) url && hasSimpleBrowserOpened env)
    eqn:E; [now apply dedup_test in E|].
  rewrite Hs. reflexivity.
Qed.

(** C3.  A request for the recorded URL while a preview tab is open does
    nothing.  Every other request issues the open-preview command with
    beside placement and preserveFocus, and records the URL exactly when
    [serverStarted] is true; nothing else changes. *)
Theorem _openUrl_dedup (url : string) (env : Vscode.Env) (m : Machine) :
  (currentUrl (this m) = Some url /\ previewTabOpen env ->
   _openUrl url env m = m) /\
  (~ (currentUrl (this m) = Some url /\ previewTabOpen env) ->
   let m' := _openUrl url env m in
   calls m' = (calls m ++ [openPreview url])%list /\
   currentUrl (this m') =
     (match serverStarted (this m) with
      | Some true => Some url
      | _ => currentUrl (this m)
      end) /\
   this m' = set_currentUrl (currentUrl (this m')) (this m) /\
   listeners m' = listeners m /\ pending m' = pending m).
Proof.
  unfold _openUrl. split.
  - intros H. apply dedup_test in H. now rewrite H.
  - intros Hn.
    destruct (strictEqStr (currentUrl (this m)) url && hasSimpleBrowserOpened env)
      eqn:E; [now apply dedup_test in E|].
    destruct m as [[ds l h u s sb] ls n cs p]. cbn.
    destruct s as [[]|]; cbn; repeat split; reflexivity.
Qed.

(** The session of [launch] is Started and has recorded nothing yet: with
    the preview tab open, a first request for a URL opens and records it. *)
Lemma _openUrl_dedup_witness :
  let m := run Part000Logger dev launch (new Part000Logger dev (quiet 0)) in
  let env := editing [running] [preview] in
  ~ (currentUrl (this m) = Some "http://x/a" /\ previewTabOpen env) /\
  calls (_openUrl "http://x/a" env m) = (calls m ++ [openPreview "http://x/a"])%list /\
  currentUrl (this (_openUrl "http://x/a" env m)) = Some "http://x/a".
Proof.
  intros m env.
  assert (H : ~ (currentUrl (this m) = Some "http://x/a" /\ previewTabOpen env))
    by (intros [H _]; discriminate H).
  split; [exact H|].
  destruct (proj2 (_openUrl_dedup "http://x/a" env m) H) as (Hc & Hu & _).
  split; [exact Hc | exact Hu].
Defined.

(** *** Task acquisition *)

Ltac appended :=
  first
    [ exists (@nil Effect); split; [ now rewrite app_nil_r | ]
    | eexists; split; [ rewrite <- ?app_assoc; reflexivity | ] ].

(** No resumption of a suspended call invokes the command provider or
    disposes anything: the provider is only called from the synchronous
    entry of [start]. *)
Lemma resume_calls (rev : Revision) (opt : SimpleServerOptions)
      (k : Suspended) (r : Settled) (env : Vscode.Env) (m : Machine) :
  exists new,
    calls (snd (resume rev opt k r env m)) = (calls m ++ new)%list /\
    ~ In getStartCommand new /\
    (forall d, ~ In (disposed d) new).
Proof.
  destruct m as [c ls n cs p], env as [ts gs [[u [f|]]|] t].
  all: destruct k, r as [[| |]|], rev; cbn;
    unfold _navigateCurrentPage_resolved, _detectServer, _detectServer_loop,
      start_finish, _navigateCurrentPage, _openUrl; cbn;
    repeat match goal with
           | |- context [if ?b then _ else _] => destruct b
           end; cbn.
  all: appended; (split; [|intros d]); cbn; intuition discriminate.
Qed.

Lemma start_guard (rev : Revision) (opt : SimpleServerOptions)
      (env : Vscode.Env) (m : Machine) :
  isStarted (this m) = true -> start rev opt env m = m.
Proof. unfold start. now intros ->. Qed.

(** C1, as the code has it.  A [start] stopped by its entry guard changes
    nothing, so it neither adopts a terminal nor asks the command
    provider.  A [start] that gets past the guard while the first terminal
    named [taskName] in [window.terminals] has not exited adopts that
    terminal, calls no collaborator at all before it suspends at
    [await this._startTask()], and no later resumption of any suspended
    call invokes the command provider. *)
Theorem start_adopts (rev : Revision) (opt : SimpleServerOptions)
        (env : Vscode.Env) (m : Machine) :
  (isStarted (this m) = true -> start rev opt env m = m) /\
  (isStarted (this m) = false ->
   forall t,
     find (fun t => Vscode.name t =? taskName opt) (Vscode.terminals env) = Some t ->
     Vscode.exitStatus t = None ->
     let m' := start rev opt env m in
     taskHandler (this m') = Some (TerminalHandle t) /\
     calls m' = calls m /\
     pending m' = (pending m ++ [start_startTask])%list /\
     forall k r env' x,
     exists new,
       calls (snd (resume rev opt k r env' x)) = (calls x ++ new)%list /\
       ~ In getStartCommand new).
Proof.
  split; [apply start_guard|].
  intros Hg t Hf He. unfold start, _startTask. rewrite Hg.
  destruct m as [c ls n cs p]. cbn. rewrite Hf, He.
  split; [|split; [|split]].
  - destruct rev; reflexivity.
  - destruct rev; reflexivity.
  - destruct rev; reflexivity.
  - intros k r env' x.
    destruct (resume_calls rev opt k r env' x) as (new & H1 & H2 & _).
    exists new. split; assumption.
Qed.

Lemma start_adopts_witness :
  let m := new Part000Logger dev (quiet 0) in
  let env := editing [running] [] in
  isStarted (this m) = false /\
  find (fun t => Vscode.name t =? taskName dev) (Vscode.terminals env) = Some running /\
  Vscode.exitStatus running = None /\
  taskHandler (this (start Part000Logger dev env m)) = Some (TerminalHandle running) /\
  calls (start Part000Logger dev env m) = calls m.
Proof.
  intros m env.
  split; [reflexivity|]. split; [reflexivity|]. split; [reflexivity|].
  destruct (proj2 (start_adopts Part000Logger dev env m) eq_refl running
                  eq_refl eq_refl) as (H1 & H2 & _).
  split; [exact H1 | exact H2].
Defined.

(** C1 as stated fails twice.  After [launch] the task's terminal is
    there and running, yet a further [start] stops at its guard and the
    handle stays the launched execution.  And on a fresh controller, with
    an exited terminal named "dev" listed before a running one, [start]
    looks at the exited one only: it adopts nothing and asks the command
    provider. *)
Lemma start_adopts_counterexample :
  (let m := run Part000Logger dev launch (new Part000Logger dev (quiet 0)) in
   let env := editing [running] [] in
   In running (Vscode.terminals env) /\
   Vscode.name running = taskName dev /\
   Vscode.exitStatus running = None /\
   taskHandler (this (start Part000Logger dev env m))
     <> Some (TerminalHandle running)) /\
  (let m := new Part000Logger dev (quiet 0) in
   let env := editing [exited; running] [] in
   In running (Vscode.terminals env) /\
   Vscode.name running = taskName dev /\
   Vscode.exitStatus running = None /\
   isStarted (this m) = false /\
   taskHandler (this (start Part000Logger dev env m))
     <> Some (TerminalHandle running) /\
   calls (start Part000Logger dev env m) = (calls m ++ [getStartCommand])%list).
Proof.
  split; cbn.
  - repeat (split; [intuition reflexivity|]). discriminate.
  - repeat (split; [intuition reflexivity|]). split; [discriminate|reflexivity].
Qed.

(** *** What a resumption can change *)

Ltac crush_resume :=
  cbn;
  unfold _navigateCurrentPage_resolved, _detectServer, _detectServer_loop,
    start_finish, _navigateCurrentPage, _openUrl, statusBar_call; cbn;
  repeat match goal with
         | |- context [if ?b then _ else _] => destruct b
         end; cbn.

(** No resumption touches the editor-change subscription, the
    disposables or the host's registrations; none clears the task handle
    or [serverStarted]. *)
Lemma resume_keeps (rev : Revision) (opt : SimpleServerOptions)
      (k : Suspended) (r : Settled) (env : Vscode.Env) (m : Machine) :
  let m' := snd (resume rev opt k r env m) in
  editorChangeListener (this m') = editorChangeListener (this m) /\
  _disposables (this m') = _disposables (this m) /\
  listeners m' = listeners m /\
  nextId m' = nextId m /\
  (taskHandler (this m) <> None -> taskHandler (this m') <> None) /\
  (serverStarted (this m') = serverStarted (this m) \/
   exists b, serverStarted (this m') = Some b).
Proof.
  destruct m as [[ds l h u s sb] ls n cs p], env as [ts gs [[ur [f|]]|] t].
  all: destruct k, r as [[| |]|], rev; crush_resume.
  all: destruct sb; cbn; repeat split; eauto; discriminate.
Qed.

Lemma poll_step_this (rev : Revision) (opt : SimpleServerOptions)
      (url : string) (maxTime : Z) (r : Settled) (env : Vscode.Env) (m : Machine) :
  this (snd (resume rev opt (start_fetch url maxTime) r env m)) = this m /\
  this (snd (resume rev opt (start_sleep url maxTime) r env m)) = this m.
Proof.
  destruct r as [v|]; cbn; auto.
  unfold _detectServer_loop. destruct (_ <? _)%Z; cbn; auto.
Qed.

(** *** start sets serverStarted before any probe *)

(** C9.  In the two part_000 revisions the resumption of [start] after
    [await this._startTask()] sets [serverStarted] to true whatever the
    state and the settlement, and the only call it makes is the request
    for the root URL: no probe has been issued.  The poll never touches
    the controller afterwards, and with [serverStarted] true [_openUrl]
    records every URL it opens. *)
Theorem serverStarted_before_probe (rev : Revision) (opt : SimpleServerOptions)
        (r : Settled) (env : Vscode.Env) (m : Machine) :
  isPart000 rev = true ->
  let m' := snd (resume rev opt start_startTask r env m) in
  fst (resume rev opt start_startTask r env m) = Some start_resolveUrl /\
  serverStarted (this m') = Some true /\
  calls m' = (calls m ++ [resolveUrl None])%list /\
  (forall url maxTime r' env' x,
      this (snd (resume rev opt (start_fetch url maxTime) r' env' x)) = this x /\
      this (snd (resume rev opt (start_sleep url maxTime) r' env' x)) = this x) /\
  (forall url env' x,
      serverStarted (this x) = Some true ->
      ~ (currentUrl (this x) = Some url /\ previewTabOpen env') ->
      currentUrl (this (_openUrl url env' x)) = Some url).
Proof.
  intros Hrev m'. subst m'.
  assert (H : resume rev opt start_startTask r env m =
              (Some start_resolveUrl,
               call (resolveUrl None) (with_this (set_serverStarted (Some true)) m))).
  { destruct rev; try discriminate; destruct r as [[| |]|]; reflexivity. }
  rewrite H. cbn [fst snd].
  split; [reflexivity|]. split; [reflexivity|]. split; [reflexivity|]. split.
  - intros. apply poll_step_this.
  - intros url env' x. apply _openUrl_records.
Qed.

Lemma serverStarted_before_probe_witness :
  let m := run Part000Plain dev
               [ (quiet 0, call_start);
                 (quiet 0, settle 0 (Fulfilled (Str "npm run dev")));
                 (quiet 0, settle 0 (Fulfilled (Execution 7))) ]
               (new Part000Plain dev (quiet 0)) in
  isPart000 Part000Plain = true /\
  serverStarted (this m) = Some false /\
  serverStarted
    (this (snd (resume Part000Plain dev start_startTask (Fulfilled Undefined)
                       (quiet 0) m)))
  = Some true.
Proof.
  intros m. split; [reflexivity|]. split; [reflexivity|].
  exact (proj1 (proj2 (serverStarted_before_probe Part000Plain dev
                         (Fulfilled Undefined) (quiet 0) m eq_refl))).
Defined.

(** The server of [silent] never answers, yet in the part_000 revisions
    the URL opened meanwhile is recorded; src/src/SimpleServer.ts, which
    waits for the poll, records nothing. *)
Example silent_server_records :
  currentUrl (this (run Part000Logger dev silent (new Part000Logger dev (quiet 0))))
    = Some "http://x/a" /\
  currentUrl (this (run Part000Plain dev silent (new Part000Plain dev (quiet 0))))
    = Some "http://x/a" /\
  currentUrl (this (run SimpleServerTs dev silent (new SimpleServerTs dev (quiet 0))))
    = None.
Proof. repeat split; reflexivity. Qed.

(** *** The outcome of the poll *)

Lemma start_finish_fields (rev : Revision) (env : Vscode.Env) (m : Machine) :
  let m' := start_finish rev env m in
  editorChangeListener (this m') = editorChangeListener (this m) /\
  taskHandler (this m') = taskHandler (this m) /\
  currentUrl (this m') = currentUrl (this m) /\
  serverStarted (this m') = serverStarted (this m) /\
  listeners m' = listeners m /\
  indicator StatusBar.Started (this m').
Proof.
  destruct m as [[ds l h u s sb] ls n cs p], env as [ts gs [[ur [f|]]|] t].
  all: destruct rev, sb; cbn; unfold indicator, StatusBar.shows; cbn;
    intuition reflexivity.
Qed.











(** *** The readiness poll *)

Local Open Scope Z_scope.

Lemma unanswered_loop (rev : Revision) (opt : SimpleServerOptions)
      (latency : nat -> Z) (D : Z) (url : string) (maxTime : Z) :
  (forall i, 0 <= latency i <= D) ->
  forall (f i : nat) (clock : Z) (m : Machine),
    maxTime - clock <= 500 * Z.of_nat f ->
    let km := _detectServer_loop rev url maxTime clock m in
    exists n tend m',
      unanswered rev opt latency (2 * f) i clock (fst km) (snd km)
        = Some (afterLoop rev, (i + n)%nat, tend, m') /\
      calls m' = (calls m ++ rounds url n)%list /\
      this m' = this m /\
      clock <= tend /\ maxTime <= tend /\
      (n = 0%nat -> tend = clock) /\
      (n <> 0%nat -> tend < maxTime + 500 + D) /\
      500 * Z.of_nat n <= tend - clock <= (500 + D) * Z.of_nat n.
Proof.
  intros Hl. induction f as [|f IH]; intros i clock m Hf km; subst km;
    unfold _detectServer_loop.
  - destruct (Z.ltb_spec clock maxTime) as [Hlt|Hge]; [lia|].
    exists 0%nat, clock, m. cbn. rewrite Nat.add_0_r, app_nil_r.
    repeat split; auto; lia.
  - destruct (Z.ltb_spec clock maxTime) as [Hlt|Hge].
    + replace (2 * S f)%nat with (S (S (2 * f))) by lia.
      cbn [fst snd unanswered resume].
      specialize (IH (S i) (clock + latency i + 500)
                     (call (sleep 500) (call (fetch url) m))).
      pose proof (Hl i) as Hi.
      destruct IH as (n & tend & m' & E & Hc & Ht & H1 & H2 & H3 & H4 & H5);
        [lia|].
      exists (S n), tend, m'.
      cbn [Vscode.now quiet].
      unfold _detectServer_loop in E |- *.
      destruct (clock + latency i + 500 <? maxTime) eqn:Eb;
        cbn [fst snd] in E |- *.
      * rewrite E. 
        replace (S i + n)%nat with (i + S n)%nat by lia.
        split; [reflexivity|].
        split; [rewrite Hc; cbn; rewrite <- !app_assoc; reflexivity|].
        split; [rewrite Ht; reflexivity|].
        rewrite Nat2Z.inj_succ.
        repeat split; lia.
      * rewrite E.
        replace (S i + n)%nat with (i + S n)%nat by lia.
        split; [reflexivity|].
        split; [rewrite Hc; cbn; rewrite <- !app_assoc; reflexivity|].
        split; [rewrite Ht; reflexivity|].
        rewrite Nat2Z.inj_succ.
        repeat split; lia.
    + exists 0%nat, clock, m. cbn [fst snd].
      replace (2 * S f)%nat with (S (S (2 * f))) by lia. cbn.
      rewrite Nat.add_0_r, app_nil_r.
      repeat split; auto; lia.
Qed.

(** C5, as the code has it.  The poll's timeout [T] is the configured
    [checkTimeout] (10 000 ms when absent) in the part_000 revisions and a
    fixed 15 000 ms in src/src/SimpleServer.ts.  Against an endpoint that
    never answers, each probe failing within [D] ms and each [sleep(500)]
    lasting 500 ms, [_detectServer] returns after [n] probes, one
    [sleep(500)] after each, at a time [tend] not before the deadline and
    less than [500 + D] ms after it; the probes are 500 to [500 + D] ms
    apart, so that with [D = 0] there are exactly 20 of them for 10 000 ms
    and 30 for 15 000 ms.  A probe that succeeds makes [_detectServer]
    return true at once, with no further call. *)
Theorem poll_bound (rev : Revision) (opt : SimpleServerOptions) (url : string)
        (env : Vscode.Env) (m : Machine) (latency : nat -> Z) (D : Z) :
  (forall i, 0 <= latency i <= D) ->
  let t0 := Vscode.now env in
  let T := timeout rev opt in
  let km := _detectServer rev opt url env m in
  (exists fuel n tend m',
      unanswered rev opt latency fuel 0 t0 (fst km) (snd km)
        = Some (afterLoop rev, n, tend, m') /\
      calls m' = (calls m ++ rounds url n)%list /\
      this m' = this m /\
      t0 + T <= tend < t0 + Z.max 0 T + 500 + D /\
      500 * Z.of_nat n <= tend - t0 <= (500 + D) * Z.of_nat n /\
      (D = 0 -> T = 10000 -> n = 20%nat) /\
      (D = 0 -> T = 15000 -> n = 30%nat)) /\
  T = (match rev with
       | SimpleServerTs => 15000
       | _ => match checkTimeout opt with Some t => t | None => 10000 end
       end) /\
  (forall maxTime v env' x,
      resume rev opt (start_fetch url maxTime) (Fulfilled v) env' x
        = (Some (start_detectServer true), x)).
Proof.
  intros Hl t0 T km. split; [|split; [destruct rev; reflexivity | reflexivity]].
  subst km. unfold _detectServer. fold t0. fold T.
  destruct (@unanswered_loop rev opt latency D url (t0 + T) Hl
              (Z.to_nat (Z.max 0 T)) 0%nat t0 m)
    as (n & tend & m' & E & Hc & Ht & H1 & H2 & H3 & H4 & H5); [lia|].
  exists (2 * Z.to_nat (Z.max 0 T))%nat, n, tend, m'.
  split; [exact E|]. split; [exact Hc|]. split; [exact Ht|].
  pose proof (Hl 0%nat) as HD.
  assert (Hn : n = 0%nat \/ n <> 0%nat) by lia.
  destruct Hn as [Hn|Hn]; [specialize (H3 Hn) | specialize (H4 Hn)];
    repeat split; lia.
Qed.

Lemma poll_bound_witness :
  (forall i : nat, 0 <= (fun _ : nat => 0) i <= 0) /\
  exists fuel n tend m',
    unanswered Part000Logger dev (fun _ => 0) fuel 0 0
               (fst (_detectServer Part000Logger dev "http://x" (quiet 0)
                                   (new Part000Logger dev (quiet 0))))
               (snd (_detectServer Part000Logger dev "http://x" (quiet 0)
                                   (new Part000Logger dev (quiet 0))))
      = Some (true, n, tend, m') /\
    n = 20%nat /\ 10000 <= tend < 10500.
Proof.
  assert (H : forall i : nat, 0 <= (fun _ : nat => 0) i <= 0) by (intros; lia).
  split; [exact H|].
  destruct (proj1 (@poll_bound Part000Logger dev "http://x" (quiet 0)
                               (new Part000Logger dev (quiet 0))
                               (fun _ => 0) 0 H))
    as (fuel & n & tend & m' & E & _ & _ & Ht & _ & Hn & _).
  exists fuel, n, tend, m'.
  split; [exact E|]. split; [exact (Hn eq_refl eq_refl)|].
  cbn in Ht. lia.
Defined.

(** C5 as stated fails in src/src/SimpleServer.ts: with the default
    configuration its poll against a silent endpoint makes 30 probes and
    returns at 15 000 ms, which is not within 500 ms of 10 000 ms. *)
Lemma poll_bound_counterexample :
  timeout SimpleServerTs dev = 15000 /\
  (exists m',
      unanswered SimpleServerTs dev (fun _ => 0) 60 0 0
                 (fst (_detectServer SimpleServerTs dev "http://x" (quiet 0)
                                     (new SimpleServerTs dev (quiet 0))))
                 (snd (_detectServer SimpleServerTs dev "http://x" (quiet 0)
                                     (new SimpleServerTs dev (quiet 0))))
        = Some (false, 30%nat, 15000, m')) /\
  ~ 15000 < 10000 + 500.
Proof.
  split; [reflexivity|]. split; [|lia].
  eexists. vm_compute. reflexivity.
Qed.

Local Close Scope Z_scope.

(** *** The recorded URL across sessions *)

(** [stop] clears the recorded URL in every revision; [start] clears it
    in the logger revision only, at the top of [_startTask]. *)
Lemma currentUrl_reset (rev : Revision) (opt : SimpleServerOptions)
      (env : Vscode.Env) (m : Machine) :
  currentUrl (this (stop m)) = None /\
  (isStarted (this m) = false ->
   currentUrl (this (start rev opt env m)) =
     match rev with
     | Part000Logger => None
     | _ => currentUrl (this m)
     end).
Proof.
  split; [apply stop_fields|].
  intros Hg. unfold start, _startTask. rewrite Hg.
  destruct m as [[ds l h u s sb] ls n cs p]. cbn.
  destruct (find _ _) as [t|]; [destruct (Vscode.exitStatus t)|];
    destruct rev, sb; reflexivity.
Qed.

(** C6 at its failing input.  A [stop] overtakes a [start] that waits
    for the command provider; the overtaken [start] runs on, the server
    answers, and the navigation it triggers records a.md's URL while the
    editor-change subscription is gone.  The next [start] gets past the
    guard.  In src/src/SimpleServer.ts and in the plain part_000 revision
    it leaves the recorded URL in place, and the first navigation of the
    new session, to that same URL with the preview tab open, is not
    opened.  The logger revision resets the URL and opens it. *)
Theorem stale_url_survives_start :
  (forall rev, rev = SimpleServerTs \/ rev = Part000Plain ->
     let m := run rev dev (overtaken ++ overtaken_rest) (new rev dev (quiet 0)) in
     isStarted (this m) = false /\
     currentUrl (this m) = Some "http://x/a" /\
     currentUrl (this (start rev dev (editing [running] [preview]) m))
       = Some "http://x/a" /\
     opened (run rev dev fresh_session m) = opened m) /\
  (let m := run Part000Logger dev (overtaken ++ overtaken_rest)
                (new Part000Logger dev (quiet 0)) in
   isStarted (this m) = false /\
   currentUrl (this m) = Some "http://x/a" /\
   currentUrl (this (start Part000Logger dev (editing [running] [preview]) m))
     = None /\
   opened (run Part000Logger dev fresh_session m) = S (opened m)).
Proof.
  split.
  - intros rev [-> | ->]; vm_compute; repeat split; reflexivity.
  - vm_compute; repeat split; reflexivity.
Qed.

Lemma stale_url_survives_start_witness :
  (SimpleServerTs = SimpleServerTs \/ SimpleServerTs = Part000Plain) /\
  currentUrl
    (this (start SimpleServerTs dev (editing [running] [preview])
                 (run SimpleServerTs dev (overtaken ++ overtaken_rest)
                      (new SimpleServerTs dev (quiet 0)))))
  = Some "http://x/a".
Proof.
  split; [left; reflexivity|].
  exact (proj1 (proj2 (proj2 (proj1 stale_url_survives_start SimpleServerTs
                                    (or_introl eq_refl))))).
Defined.

(** *** The subscription and the session state *)

Lemma dispose__this (d : Disposable) (m : Machine) : this (dispose_ d m) = this m.
Proof. destruct d; reflexivity. Qed.

Lemma dispose_all_this (ds : list Disposable) (m : Machine) :
  this (fold_left (fun m i => dispose_ i m) ds m) = this m.
Proof.
  revert m. induction ds as [|d ds IH]; intros m; cbn; [reflexivity|].
  rewrite IH. apply dispose__this.
Qed.

Lemma notify_ind (P : Machine -> Prop) (on : Vscode.Notification)
      (h : Machine -> Machine) (m : Machine) :
  (forall x, P x -> P (h x)) -> P m -> P (notify on h m).
Proof.
  intros Hh. unfold notify.
  generalize (filter (fun l => Vscode.Notification_eqb (snd l) on) (listeners m)).
  intros l. revert m. induction l as [|a l IH]; intros m Hm; cbn; auto.
Qed.

Lemma _navigateCurrentPage_this (rev : Revision) (env : Vscode.Env) (m : Machine) :
  this (_navigateCurrentPage rev env m) = this m.
Proof.
  unfold _navigateCurrentPage.
  destruct (Vscode.activeTextEditor env) as [[u [f|]]|], rev; reflexivity.
Qed.

Lemma invariant_statusBar (c : SimpleServer) (v : option StatusBar.t) :
  listener_iff_not_Stopped c -> listener_iff_not_Stopped (set_statusBar v c).
Proof. destruct c; exact (fun H => H). Qed.

Lemma invariant_statusBar_call (f : StatusBar.t -> StatusBar.t) (c : SimpleServer) :
  listener_iff_not_Stopped c -> listener_iff_not_Stopped (statusBar_call f c).
Proof.
  unfold statusBar_call. destruct (statusBar c); [apply invariant_statusBar|auto].
Qed.

Lemma stop_invariant (m : Machine) : listener_iff_not_Stopped (this (stop m)).
Proof.
  destruct (stop_fields m) as (H1 & _ & _ & H4 & _).
  unfold listener_iff_not_Stopped, sessionState. rewrite H1, H4. tauto.
Qed.

Lemma start_invariant (rev : Revision) (opt : SimpleServerOptions)
      (env : Vscode.Env) (m : Machine) :
  listener_iff_not_Stopped (this m) ->
  listener_iff_not_Stopped (this (start rev opt env m)).
Proof.
  intros Hi. unfold start. destruct (isStarted (this m)); [exact Hi|].
  unfold _startTask.
  destruct m as [[ds l h u s sb] ls n cs p]. cbn.
  destruct (find _ _) as [t|]; [destruct (Vscode.exitStatus t)|];
    destruct rev, sb; cbn; unfold listener_iff_not_Stopped, sessionState; cbn;
    split; discriminate.
Qed.

Lemma resume_invariant (rev : Revision) (opt : SimpleServerOptions)
      (k : Suspended) (r : Settled) (env : Vscode.Env) (m : Machine) :
  isStarted (this m) = true ->
  listener_iff_not_Stopped (this m) ->
  listener_iff_not_Stopped (this (snd (resume rev opt k r env m))).
Proof.
  intros Hs Hi.
  destruct (resume_keeps rev opt k r env m) as (H1 & _ & _ & _ & _ & H6).
  unfold listener_iff_not_Stopped, sessionState in *. rewrite H1.
  unfold isStarted in Hs.
  destruct (editorChangeListener (this m)); [|discriminate].
  destruct H6 as [-> | [b ->]]; [exact Hi|].
  split; [destruct b|]; discriminate.
Qed.

(** C7, as the code has it.  Every synchronous operation (start, stop,
    toggle, dispose and the three listeners) preserves the invariant, and
    so does a resumed continuation as long as the editor-change
    subscription is still there, that is, no [stop] has intervened.  Under
    the invariant [isStarted] says exactly that the session is Spinning
    or Started; the constructor establishes it; and a [start] called
    while [isStarted] is true returns the machine it was given. *)
Theorem listener_invariant (rev : Revision) (opt : SimpleServerOptions)
        (env : Vscode.Env) (m : Machine) :
  (forall ev,
      listener_iff_not_Stopped (this m) ->
      (forall i r, ev = settle i r -> isStarted (this m) = true) ->
      listener_iff_not_Stopped (this (step rev opt env ev m))) /\
  (listener_iff_not_Stopped (this m) ->
   (isStarted (this m) = true <->
    sessionState (this m) = Spinning \/ sessionState (this m) = Started)) /\
  (isStarted (this m) = true -> start rev opt env m = m) /\
  listener_iff_not_Stopped (this (new rev opt env)).
Proof.
  split; [|split; [|split]].
  - intros ev Hi Hs. destruct ev; cbn [step].
    + now apply start_invariant.
    + apply stop_invariant.
    + unfold toggle. destruct (isStarted (this m));
        [apply stop_invariant | now apply start_invariant].
    + unfold dispose. rewrite dispose_all_this.
      apply invariant_statusBar_call, stop_invariant.
    + apply notify_ind; [|exact Hi]. intros x Hx.
      unfold onDidEndTask_listener. destruct (_ =? _); [apply stop_invariant|exact Hx].
    + apply notify_ind; [|exact Hi]. intros x Hx.
      unfold onDidCloseTerminal_listener.
      destruct (_ =? _); [apply stop_invariant|exact Hx].
    + apply notify_ind; [|exact Hi]. intros x Hx.
      now rewrite _navigateCurrentPage_this.
    + destruct (nth_error (pending m) i) as [k|]; [|exact Hi].
      pose proof (@resume_invariant rev opt k r env m (Hs i r eq_refl) Hi) as H.
      destruct (resume rev opt k r env m) as [k' m']. exact H.
  - unfold listener_iff_not_Stopped, isStarted, sessionState.
    destruct (editorChangeListener (this m)), (serverStarted (this m)) as [[]|];
      cbn; intros [H1 H2]; split; intros H; auto; try discriminate.
    all: try (destruct H; discriminate).
    all: try (exfalso; apply H1; [discriminate|reflexivity]).
    all: exfalso; apply H2; [discriminate|reflexivity].
  - apply start_guard.
  - unfold new, constructor_statusBar, constructor_autoStart.
    assert (H0 : forall x, listener_iff_not_Stopped (this x) ->
                           listener_iff_not_Stopped
                             (this (if truthyBool (autoStart opt)
                                    then start rev opt env x else x))).
    { intros x Hx. destruct (truthyBool (autoStart opt));
        [now apply start_invariant | exact Hx]. }
    destruct rev.
    + destruct (statusBar_ opt); [|apply H0].
      * apply invariant_statusBar, H0.
        cbn; unfold listener_iff_not_Stopped; cbn; tauto.
      * cbn; unfold listener_iff_not_Stopped; cbn; tauto.
    + apply H0. destruct (statusBar_ opt); cbn;
        unfold listener_iff_not_Stopped; cbn; tauto.
    + apply H0. destruct (statusBar_ opt); cbn;
        unfold listener_iff_not_Stopped; cbn; tauto.
Qed.

Lemma listener_invariant_witness :
  let m := step Part000Logger dev (quiet 0) call_start
                (new Part000Logger dev (quiet 0)) in
  let ev := settle 0 (Fulfilled (Str "npm run dev")) in
  listener_iff_not_Stopped (this m) /\
  (forall i r, ev = settle i r -> isStarted (this m) = true) /\
  listener_iff_not_Stopped (this (step Part000Logger dev (quiet 0) ev m)).
Proof.
  intros m ev.
  assert (H1 : listener_iff_not_Stopped (this m)) by (split; discriminate).
  assert (H2 : forall i r, ev = settle i r -> isStarted (this m) = true)
    by reflexivity.
  split; [exact H1|]. split; [exact H2|].
  exact (proj1 (listener_invariant Part000Logger dev (quiet 0) m) ev H1 H2).
Defined.

(** C7 as stated fails.  After [overtaken] the invariant holds: [stop]
    has cleared the subscription and [serverStarted].  Resuming the
    overtaken [start] then sets [serverStarted] while the subscription
    stays cleared: at once in the part_000 revisions, after the poll in
    src/src/SimpleServer.ts. *)
Lemma listener_invariant_counterexample :
  (let m := run Part000Logger dev overtaken (new Part000Logger dev (quiet 0)) in
   let m' := step Part000Logger dev (quiet 0) (settle 0 (Fulfilled Undefined)) m in
   listener_iff_not_Stopped (this m) /\
   editorChangeListener (this m') = None /\
   sessionState (this m') = Started /\
   ~ listener_iff_not_Stopped (this m')) /\
  (let m := run SimpleServerTs dev (overtaken ++ firstn 3 overtaken_rest)
                (new SimpleServerTs dev (quiet 0)) in
   let m' := step SimpleServerTs dev (quiet 0) (settle 0 (Fulfilled Undefined)) m in
   listener_iff_not_Stopped (this m) /\
   editorChangeListener (this m') = None /\
   sessionState (this m') = Started /\
   ~ listener_iff_not_Stopped (this m')).
Proof.
  split; cbv zeta.
  - split; [split; intros H; exfalso; apply H; reflexivity|].
    split; [reflexivity|]. split; [reflexivity|].
    intros [_ H]. apply H; [discriminate|reflexivity].
  - split; [split; intros H; exfalso; apply H; reflexivity|].
    split; [reflexivity|]. split; [reflexivity|].
    intros [_ H]. apply H; [discriminate|reflexivity].
Qed.

(** *** The constructor's two listeners *)

Lemma filter_comm (A : Type) (f g : A -> bool) (l : list A) :
  filter f (filter g l) = filter g (filter f l).
Proof.
  induction l as [|a l IH]; cbn; [reflexivity|].
  destruct (f a) eqn:Ef, (g a) eqn:Eg; cbn; rewrite ?Ef, ?Eg, IH; reflexivity.
Qed.

Lemma registered_dispose_ (on : Vscode.Notification) (d : Disposable) (m : Machine) :
  registered on (dispose_ d m) =
    match d with
    | Listener id on' =>
        filter (fun l => negb (same_listener l (id, on'))) (registered on m)
    | _ => registered on m
    end.
Proof.
  destruct d; cbn; try reflexivity.
  unfold registered. cbn. apply filter_comm.
Qed.

Lemma resume_taskHandler (rev : Revision) (opt : SimpleServerOptions)
      (k : Suspended) (r : Settled) (env : Vscode.Env) (m : Machine) :
  taskHandler (this (snd (resume rev opt k r env m))) = taskHandler (this m) \/
  exists e,
    taskHandler (this (snd (resume rev opt k r env m))) = Some (ExecutionHandle e).
Proof.
  destruct m as [[ds l h u s sb] ls n cs p], env as [ts gs [[ur [f|]]|] t].
  all: destruct k, r as [[| |]|], rev; crush_resume.
  all: destruct sb; cbn; eauto.
Qed.

Lemma registered_other (on on' : Vscode.Notification) (id : nat)
      (ls : list (nat * Vscode.Notification)) :
  Vscode.Notification_eqb on' on = false ->
  filter (fun l => Vscode.Notification_eqb (snd l) on)
         (filter (fun l => negb (same_listener l (id, on'))) ls)
  = filter (fun l => Vscode.Notification_eqb (snd l) on) ls.
Proof.
  intros Hne. induction ls as [|[i o] ls IH]; cbn; [reflexivity|].
  unfold same_listener at 1. cbn.
  destruct (Vscode.Notification_eqb o on) eqn:Eo.
  - assert (Eo' : Vscode.Notification_eqb o on' = false)
      by (destruct o, on, on'; try discriminate; reflexivity).
    rewrite Eo', andb_false_r. cbn. rewrite Eo, IH. reflexivity.
  - destruct (_ && _); cbn; rewrite ?Eo; exact IH.
Qed.

Lemma wired_stop (m : Machine) : wired m -> wired (stop m).
Proof.
  intros (H1 & H2 & H3 & H4 & H5).
  destruct m as [[ds l h u s sb] ls n cs p].
  unfold registered in *. cbn in *.
  assert (Hl : l = None \/
               exists id, l = Some (Listener id Vscode.onDidChangeActiveTextEditor)).
  { destruct l as [d|]; [right|left; reflexivity].
    destruct (H4 d eq_refl) as [id ->]. eauto. }
  assert (Hh : match h with Some (Listener _ _) => False | _ => True end).
  { destruct h as [[id on| |]|]; auto. exact (H5 _ eq_refl id on eq_refl). }
  destruct Hl as [-> | [id ->]]; destruct h as [[hid hon|t|e]|]; try contradiction;
    destruct sb; unfold wired, registered; cbn;
    rewrite ?registered_other by reflexivity;
    (split; [exact H1|]); (split; [exact H2|]); (split; [exact H3|]);
    split; intros d Hd; discriminate Hd.
Qed.

Lemma wired_start (rev : Revision) (opt : SimpleServerOptions)
      (env : Vscode.Env) (m : Machine) :
  wired m -> wired (start rev opt env m).
Proof.
  intros W. unfold start. destruct (isStarted (this m)); [exact W|].
  destruct W as (H1 & H2 & H3 & H4 & H5).
  destruct m as [[ds l h u s sb] ls n cs p].
  unfold _startTask, wired, registered in *. cbn in *.
  destruct (find _ _) as [t|]; [destruct (Vscode.exitStatus t)|];
    destruct rev, sb; cbn; rewrite !filter_app, ?H1, ?H2; cbn.
  all: (split; [reflexivity|]); (split; [reflexivity|]); (split; [exact H3|]).
  all: split; [intros d [= <-]; eauto|].
  all: try exact H5.
  all: intros d [= <-]; discriminate.
Qed.

Lemma wired_resume (rev : Revision) (opt : SimpleServerOptions)
      (k : Suspended) (r : Settled) (env : Vscode.Env) (m : Machine) :
  wired m -> wired (snd (resume rev opt k r env m)).
Proof.
  intros (H1 & H2 & H3 & H4 & H5).
  destruct (resume_keeps rev opt k r env m) as (K1 & K2 & K3 & _).
  pose proof (resume_taskHandler rev opt k r env m) as K4.
  unfold wired, registered in *. rewrite K1, K2, K3.
  repeat split; auto.
  intros d Hd. destruct K4 as [K4 | [e K4]]; rewrite K4 in Hd.
  - now apply H5.
  - injection Hd as <-. discriminate.
Qed.

Lemma wired_pending (p : list Suspended) (m : Machine) :
  wired m -> wired (set_pending p m).
Proof. exact (fun H => H). Qed.

Lemma wired_navigate (rev : Revision) (env : Vscode.Env) (m : Machine) :
  wired m -> wired (_navigateCurrentPage rev env m).
Proof.
  unfold _navigateCurrentPage.
  destruct (Vscode.activeTextEditor env) as [[u [f|]]|], rev; exact (fun H => H).
Qed.

Lemma wired_step (rev : Revision) (opt : SimpleServerOptions) (env : Vscode.Env)
      (ev : Event) (m : Machine) :
  is_call_dispose ev = false -> wired m -> wired (step rev opt env ev m).
Proof.
  intros Hev W. destruct ev; try discriminate Hev; cbn [step].
  - now apply wired_start.
  - now apply wired_stop.
  - unfold toggle. destruct (isStarted (this m));
      [now apply wired_stop | now apply wired_start].
  - apply notify_ind; [|exact W]. intros x Hx.
    unfold onDidEndTask_listener. destruct (_ =? _); [now apply wired_stop|exact Hx].
  - apply notify_ind; [|exact W]. intros x Hx.
    unfold onDidCloseTerminal_listener.
    destruct (_ =? _); [now apply wired_stop|exact Hx].
  - apply notify_ind; [|exact W]. intros x Hx. now apply wired_navigate.
  - destruct (nth_error (pending m) i) as [k|]; [|exact W].
    pose proof (@wired_resume rev opt k r env m W) as H.
    destruct (resume rev opt k r env m) as [k' m']. exact H.
Qed.

Lemma wired_run (rev : Revision) (opt : SimpleServerOptions)
      (evs : list (Vscode.Env * Event)) (m : Machine) :
  forallb (fun e => negb (is_call_dispose (snd e))) evs = true ->
  wired m -> wired (run rev opt evs m).
Proof.
  revert m. induction evs as [|[env ev] evs IH]; intros m Hd W; cbn; [exact W|].
  cbn in Hd. apply andb_true_iff in Hd. destruct Hd as [Hev Hd].
  apply IH; [exact Hd|]. apply wired_step; [|exact W].
  now apply negb_true_iff.
Qed.

Lemma wired_new (rev : Revision) (opt : SimpleServerOptions) (env : Vscode.Env) :
  wired (new rev opt env).
Proof.
  assert (W0 : wired (constructor_listeners empty))
    by (unfold wired; cbn; repeat split; discriminate).
  assert (W1 : wired (constructor_listeners (constructor_statusBar opt empty)))
    by (unfold constructor_statusBar; destruct (statusBar_ opt);
        unfold wired; cbn; repeat split; discriminate).
  assert (A : forall x, wired x -> wired (constructor_autoStart rev opt env x)).
  { intros x Hx. unfold constructor_autoStart.
    destruct (truthyBool (autoStart opt)); [now apply wired_start|exact Hx]. }
  assert (B : forall x, wired x -> wired (constructor_statusBar opt x)).
  { intros x Hx. unfold constructor_statusBar.
    destruct (statusBar_ opt); [|exact Hx].
    destruct x as [[? ? ? ? ? ?] ? ? ? ?]. exact Hx. }
  destruct rev; cbn [new]; auto.
Qed.

Lemma wired_notify_stop (on : Vscode.Notification) (h : Machine -> Machine)
      (m : Machine) (l : nat * Vscode.Notification) :
  registered on m = [l] -> notify on h m = h m.
Proof. unfold notify, registered. intros ->. reflexivity. Qed.

Lemma unregistered_notify (on : Vscode.Notification) (h : Machine -> Machine)
      (m : Machine) :
  registered on m = [] -> notify on h m = m.
Proof. unfold notify, registered. intros ->. reflexivity. Qed.

Lemma wired_dispose (m : Machine) :
  wired m ->
  registered Vscode.onDidEndTask (dispose m) = [] /\
  registered Vscode.onDidCloseTerminal (dispose m) = [].
Proof.
  intros W. apply wired_stop in W. destruct W as (H1 & H2 & H3 & _).
  unfold dispose.
  assert (E : _disposables (this (with_this (statusBar_call StatusBar.dispose) (stop m)))
              = _disposables (this (stop m))).
  { generalize (stop m). intros [[? ? ? ? ? [sb|]] ? ? ? ?]; reflexivity. }
  rewrite E, H3. cbn [fold_left].
  rewrite !registered_dispose_.
  change (registered Vscode.onDidEndTask
            (with_this (statusBar_call StatusBar.dispose) (stop m)))
    with (registered Vscode.onDidEndTask (stop m)).
  change (registered Vscode.onDidCloseTerminal
            (with_this (statusBar_call StatusBar.dispose) (stop m)))
    with (registered Vscode.onDidCloseTerminal (stop m)).
  rewrite H1, H2. split; reflexivity.
Qed.

(** C8.  Take any run from the constructor in which [dispose] is not
    called.  The constructor's two listeners are then registered, once
    each, however many stop/start cycles the run went through; a
    task-ended or terminal-closed notification carrying the configured
    task name does exactly what [stop] does, so both handles are cleared,
    the session is Stopped and the indicator shows stopped.  After
    [dispose] neither listener is registered and the two notifications
    change nothing. *)
Theorem external_termination (rev : Revision) (opt : SimpleServerOptions)
        (env0 : Vscode.Env) (evs : list (Vscode.Env * Event)) :
  forallb (fun e => negb (is_call_dispose (snd e))) evs = true ->
  let m := run rev opt evs (new rev opt env0) in
  registered Vscode.onDidEndTask m = [(0, Vscode.onDidEndTask)] /\
  registered Vscode.onDidCloseTerminal m = [(1, Vscode.onDidCloseTerminal)] /\
  (forall env ev,
      ev = didEndTask (taskName opt) \/ ev = didCloseTerminal (taskName opt) ->
      let m' := step rev opt env ev m in
      m' = stop m /\
      editorChangeListener (this m') = None /\
      taskHandler (this m') = None /\
      sessionState (this m') = Stopped /\
      indicator StatusBar.Stopped (this m')) /\
  registered Vscode.onDidEndTask (dispose m) = [] /\
  registered Vscode.onDidCloseTerminal (dispose m) = [] /\
  (forall env name,
      step rev opt env (didEndTask name) (dispose m) = dispose m /\
      step rev opt env (didCloseTerminal name) (dispose m) = dispose m).
Proof.
  intros Hd m.
  assert (W : wired m) by (apply wired_run; [exact Hd | apply wired_new]).
  destruct (@wired_dispose m W) as [D1 D2].
  destruct W as (H1 & H2 & _).
  split; [exact H1|]. split; [exact H2|]. split; [|split; [exact D1|split; [exact D2|]]].
  - intros env ev Hev m'.
    assert (E : m' = stop m).
    { subst m'. destruct Hev as [-> | ->]; cbn [step].
      - rewrite (@wired_notify_stop _ _ _ _ H1). unfold onDidEndTask_listener.
        now rewrite String.eqb_refl.
      - rewrite (@wired_notify_stop _ _ _ _ H2). unfold onDidCloseTerminal_listener.
        now rewrite String.eqb_refl. }
    split; [exact E|]. rewrite E.
    destruct (stop_fields m) as (F1 & F2 & _ & F4 & F5).
    repeat split; auto. unfold sessionState. now rewrite F4.
  - intros env name. cbn [step]. split; now apply unregistered_notify.
Qed.

Lemma external_termination_witness :
  let evs := (launch ++ [(quiet 0, call_stop)] ++ launch)%list in
  let m := run Part000Logger dev evs (new Part000Logger dev (quiet 0)) in
  forallb (fun e => negb (is_call_dispose (snd e))) evs = true /\
  isStarted (this m) = true /\
  editorChangeListener
    (this (step Part000Logger dev (quiet 0) (didEndTask "dev") m)) = None /\
  taskHandler
    (this (step Part000Logger dev (quiet 0) (didEndTask "dev") m)) = None.
Proof.
  intros evs m.
  assert (H : forallb (fun e => negb (is_call_dispose (snd e))) evs = true)
    by reflexivity.
  split; [exact H|]. split; [reflexivity|].
  destruct (proj1 (proj2 (proj2 (external_termination Part000Logger dev (quiet 0)
                                                    evs H)))
                  (quiet 0) (didEndTask "dev") (or_introl eq_refl))
    as (_ & H1 & H2 & _).
  split; [exact H1 | exact H2].
Defined.

(** *** Auto-start and the indicator *)

Lemma resume_indicator (rev : Revision) (opt : SimpleServerOptions)
      (k : Suspended) (r : Settled) (env : Vscode.Env) (m : Machine) :
  indicatorState (this (snd (resume rev opt k r env m))) = indicatorState (this m) \/
  indicatorState (this (snd (resume rev opt k r env m))) = Some StatusBar.Started.
Proof.
  destruct m as [[ds l h u s sb] ls n cs p], env as [ts gs [[ur [f|]]|] t].
  all: destruct k, r as [[| |]|], rev; crush_resume.
  all: destruct sb; cbn; auto.
Qed.

(** While the editor-change subscription stays, a step leaves the
    indicator's state as it is or sets it to started. *)
Lemma step_indicator (rev : Revision) (opt : SimpleServerOptions)
      (env : Vscode.Env) (ev : Event) (m : Machine) :
  isStarted (this m) = true ->
  isStarted (this (step rev opt env ev m)) = true ->
  indicatorState (this (step rev opt env ev m)) = indicatorState (this m) \/
  indicatorState (this (step rev opt env ev m)) = Some StatusBar.Started.
Proof.
  intros Hm.
  assert (Hstop : forall x, isStarted (this (stop x)) = false).
  { intros x. unfold isStarted. now rewrite (proj1 (stop_fields x)). }
  assert (Hn : forall on name,
             let x := notify on (fun y => if name =? taskName opt then stop y else y) m in
             x = m \/ isStarted (this x) = false).
  { intros on name. apply notify_ind; [|now left].
    intros x Hx. destruct (name =? taskName opt); [right; apply Hstop|exact Hx]. }
  destruct ev; cbn [step].
  - rewrite (start_guard rev opt env m Hm). now left.
  - now rewrite Hstop.
  - unfold toggle. rewrite Hm. now rewrite Hstop.
  - unfold dispose. rewrite dispose_all_this.
    intros H. exfalso. revert H. unfold isStarted.
    generalize (stop_fields m). generalize (stop m).
    intros [[? ? ? ? ? [sb|]] ? ? ? ?]; cbn; intros (-> & _); discriminate.
  - destruct (Hn Vscode.onDidEndTask name) as [E | E];
      unfold onDidEndTask_listener; [rewrite E; now left | rewrite E; discriminate].
  - destruct (Hn Vscode.onDidCloseTerminal name) as [E | E];
      unfold onDidCloseTerminal_listener; [rewrite E; now left | rewrite E; discriminate].
  - intros _. left. f_equal.
    apply notify_ind; [|reflexivity].
    intros x Hx. now rewrite _navigateCurrentPage_this.
  - destruct (nth_error (pending m) i) as [k|]; [|now left].
    pose proof (resume_indicator rev opt k r env m) as H.
    destruct (resume rev opt k r env m) as [k' m']. intros _. exact H.
Qed.

(** C10.  In src/src/SimpleServer.ts with [autoStart] set, the
    constructor leaves a session that has started (the subscription is
    there) behind an indicator that shows stopped: [start] ran up to its
    first [await] while [statusBar] was still undefined.  For as long as
    that session lasts the indicator never shows spinning, and each step
    leaves its state alone or sets it to started. *)
Theorem auto_start_skips_spinning (opt : SimpleServerOptions) (env0 : Vscode.Env) :
  truthyBool (autoStart opt) = true ->
  let m0 := new SimpleServerTs opt env0 in
  isStarted (this m0) = true /\
  sessionState (this m0) = Spinning /\
  indicatorState (this m0) =
    match statusBar_ opt with Some _ => Some StatusBar.Stopped | None => None end /\
  indicator StatusBar.Stopped (this m0) /\
  (forall m, auto_session SimpleServerTs opt env0 m ->
             isStarted (this m) = true /\
             indicatorState (this m) <> Some StatusBar.Spinning) /\
  (forall m env ev,
      auto_session SimpleServerTs opt env0 m ->
      isStarted (this (step SimpleServerTs opt env ev m)) = true ->
      indicatorState (this (step SimpleServerTs opt env ev m)) = indicatorState (this m) \/
      indicatorState (this (step SimpleServerTs opt env ev m)) = Some StatusBar.Started).
Proof.
  intros Ha m0.
  assert (H0 : isStarted (this m0) = true /\
               sessionState (this m0) = Spinning /\
               indicatorState (this m0) =
                 match statusBar_ opt with
                 | Some _ => Some StatusBar.Stopped | None => None end /\
               indicator StatusBar.Stopped (this m0)).
  { subst m0. unfold new, constructor_autoStart, constructor_statusBar.
    rewrite Ha. unfold start, _startTask. cbn.
    destruct (find _ _) as [t|]; [destruct (Vscode.exitStatus t)|];
      destruct (statusBar_ opt); cbn; unfold indicator, StatusBar.shows; cbn;
      intuition reflexivity. }
  assert (HI : forall m, auto_session SimpleServerTs opt env0 m ->
                         isStarted (this m) = true /\
                         indicatorState (this m) <> Some StatusBar.Spinning).
  { induction 1 as [|m env ev A [IH1 IH2] Hs].
    - destruct H0 as (H1 & _ & H3 & _). split; [exact H1|].
      fold m0. rewrite H3. destruct (statusBar_ opt); discriminate.
    - split; [exact Hs|].
      destruct (step_indicator SimpleServerTs opt env ev m IH1 Hs) as [E | E];
        rewrite E; [exact IH2 | discriminate]. }
  destruct H0 as (H1 & H2 & H3 & H4).
  split; [exact H1|]. split; [exact H2|]. split; [exact H3|]. split; [exact H4|].
  split; [exact HI|].
  intros m env ev A Hs. apply step_indicator; [apply (HI m A) | exact Hs].
Qed.

Lemma auto_start_skips_spinning_witness :
  truthyBool (autoStart dev_auto) = true /\
  isStarted (this (new SimpleServerTs dev_auto (quiet 0))) = true /\
  indicatorState (this (new SimpleServerTs dev_auto (quiet 0)))
    = Some StatusBar.Stopped /\
  indicatorState (this (run SimpleServerTs dev_auto (tl launch)
                            (new SimpleServerTs dev_auto (quiet 0))))
    = Some StatusBar.Started.
Proof.
  split; [reflexivity|].
  destruct (auto_start_skips_spinning dev_auto (quiet 0) eq_refl)
    as (H1 & _ & H3 & _).
  split; [exact H1|]. split; [exact H3|]. reflexivity.
Defined.

(** The part_000 revisions create the indicator before they start: there
    an auto-started session does show spinning. *)
Example auto_start_part000_spins :
  indicatorState (this (new Part000Logger dev_auto (quiet 0)))
    = Some StatusBar.Spinning /\
  indicatorState (this (new Part000Plain dev_auto (quiet 0)))
    = Some StatusBar.Spinning.
Proof. split; reflexivity. Qed.

(** * Further properties *)

(** *** StatusBar *)

Lemma badge_calls_keep (cs : list BadgeCall) (sb : StatusBar.t) :
  StatusBar.shows (StatusBar.state sb) sb ->
  let sb' := badge_calls cs sb in
  StatusBar.shows (StatusBar.state sb') sb' /\
  StatusBar.state sb' = last_state cs (StatusBar.state sb) /\
  StatusBar.opt sb' = StatusBar.opt sb /\
  StatusBar.item_shown (StatusBar._statusBar sb')
    = StatusBar.item_shown (StatusBar._statusBar sb) /\
  StatusBar.item_priority (StatusBar._statusBar sb')
    = StatusBar.item_priority (StatusBar._statusBar sb) /\
  StatusBar.item_disposed (StatusBar._statusBar sb')
    = StatusBar.item_disposed (StatusBar._statusBar sb) || existsb is_to_dispose cs.
Proof.
  revert sb. induction cs as [|c cs IH]; intros sb H; cbn.
  - rewrite orb_false_r. tauto.
  - assert (Hc : StatusBar.shows (StatusBar.state (badge_call c sb)) (badge_call c sb)).
    { destruct c; cbn; unfold StatusBar.shows; cbn; try tauto. exact H. }
    destruct (IH _ Hc) as (H1 & H2 & H3 & H4 & H5 & H6).
    unfold badge_calls in *.
    split; [exact H1|]. split; [rewrite H2; destruct c; reflexivity|].
    split; [rewrite H3; destruct c; reflexivity|].
    split; [rewrite H4; destruct c; reflexivity|].
    split; [rewrite H5; destruct c; reflexivity|].
    rewrite H6. destruct c; cbn; rewrite ?orb_true_r, ?orb_false_r; reflexivity.
Qed.

(** X1.  Whatever sequence of [started], [spinning], [stopped] and
    [dispose] calls a freshly constructed [StatusBar] receives, the item
    shows the appearance configured for the state named by the last
    setter (stopped if there was none), stays shown and keeps its
    priority and configuration; it is disposed exactly if [dispose] was
    among the calls, and the setters go on rewriting it after that. *)
Theorem statusBar_coherent (cfg : StatusBar.StatusBarConfig) (cs : list BadgeCall) :
  let sb := badge_calls cs (StatusBar.new cfg) in
  StatusBar.shows (last_state cs StatusBar.Stopped) sb /\
  StatusBar.opt sb = cfg /\
  StatusBar.item_shown (StatusBar._statusBar sb) = true /\
  StatusBar.item_priority (StatusBar._statusBar sb) = StatusBar.priority cfg /\
  StatusBar.item_disposed (StatusBar._statusBar sb) = existsb is_to_dispose cs.
Proof.
  intros sb.
  assert (H0 : StatusBar.shows (StatusBar.state (StatusBar.new cfg)) (StatusBar.new cfg))
    by (unfold StatusBar.shows; cbn; tauto).
  destruct (badge_calls_keep cs H0) as (H1 & H2 & H3 & H4 & H5 & H6).
  fold sb in H1, H2, H3, H4, H5, H6.
  split; [|split; [|split; [|split]]].
  - change (StatusBar.state (StatusBar.new cfg)) with StatusBar.Stopped in H2.
    rewrite <- H2. exact H1.
  - exact H3.
  - exact H4.
  - exact H5.
  - exact H6.
Qed.

(** *** Registrations *)

Lemma registered_stop (on : Vscode.Notification) (m : Machine) :
  (forall d, taskHandler (this m) = Some d -> forall id on, d <> Listener id on) ->
  registered on (stop m) =
    match editorChangeListener (this m) with
    | Some (Listener id on') =>
        filter (fun l => negb (same_listener l (id, on'))) (registered on m)
    | _ => registered on m
    end.
Proof.
  intros Hh. destruct m as [[ds l h u s sb] ls n cs p]. cbn in Hh.
  assert (Hh' : match h with Some (Listener _ _) => False | _ => True end).
  { destruct h as [[id o| |]|]; auto. exact (Hh _ eq_refl id o eq_refl). }
  destruct l as [[id o|t|e]|], h as [[hid hon|t'|e']|], sb; try contradiction;
    unfold registered; cbn; try reflexivity; apply filter_comm.
Qed.

Lemma same_listener_refl (l : nat * Vscode.Notification) : same_listener l l = true.
Proof.
  destruct l as [i o]. unfold same_listener. cbn.
  rewrite Nat.eqb_refl. destruct o; reflexivity.
Qed.

Lemma tidy_stop (m : Machine) : tidy m -> tidy (stop m).
Proof.
  intros (H1 & H2 & H3 & H4 & H5 & H6).
  destruct (stop_this m) as (S1 & S2 & S3).
  unfold tidy, editor_listeners. rewrite !(registered_stop _ m H6), S1, S2, S3.
  split; [exact H1|].
  unfold editor_listeners in H4.
  destruct (editorChangeListener (this m)) as [d|] eqn:El.
  - destruct (H5 d eq_refl) as [id ->].
    rewrite H4. cbn [filter]. rewrite same_listener_refl. cbn.
    split.
    { destruct H2 as [-> | ->]; [left|right]; cbn; auto.
      unfold same_listener; cbn. now rewrite andb_false_r. }
    split.
    { destruct H3 as [-> | ->]; [left|right]; cbn; auto.
      unfold same_listener; cbn. now rewrite andb_false_r. }
    repeat split; intros; discriminate.
  - repeat split; auto; intros; discriminate.
Qed.

Lemma tidy_start (rev : Revision) (opt : SimpleServerOptions)
      (env : Vscode.Env) (m : Machine) :
  tidy m -> tidy (start rev opt env m).
Proof.
  intros T. unfold start. destruct (isStarted (this m)) eqn:Hs; [exact T|].
  destruct T as (H1 & H2 & H3 & H4 & H5 & H6).
  destruct m as [[ds l h u s sb] ls n cs p].
  unfold isStarted in Hs. cbn in Hs. destruct l; [discriminate|].
  unfold _startTask, tidy, registered, editor_listeners in *. cbn in *.
  destruct (find _ _) as [t|]; [destruct (Vscode.exitStatus t)|];
    destruct rev, sb; cbn; rewrite !filter_app, H4; cbn; rewrite !app_nil_r.
  all: (split; [exact H1|]); (split; [exact H2|]); (split; [exact H3|]).
  all: (split; [reflexivity|]).
  all: split; [intros d [= <-]; eauto|].
  all: try exact H6.
  all: intros d [= <-]; discriminate.
Qed.

Lemma tidy_resume (rev : Revision) (opt : SimpleServerOptions)
      (k : Suspended) (r : Settled) (env : Vscode.Env) (m : Machine) :
  tidy m -> tidy (snd (resume rev opt k r env m)).
Proof.
  intros (H1 & H2 & H3 & H4 & H5 & H6).
  destruct (resume_keeps rev opt k r env m) as (K1 & K2 & K3 & _).
  pose proof (resume_taskHandler rev opt k r env m) as K4.
  unfold tidy, registered, editor_listeners in *. rewrite K1, K2, K3.
  repeat split; auto.
  intros d Hd. destruct K4 as [K4 | [e K4]]; rewrite K4 in Hd.
  - now apply H6.
  - injection Hd as <-. discriminate.
Qed.

Lemma tidy_navigate (rev : Revision) (env : Vscode.Env) (m : Machine) :
  tidy m -> tidy (_navigateCurrentPage rev env m).
Proof.
  unfold _navigateCurrentPage.
  destruct (Vscode.activeTextEditor env) as [[u [f|]]|], rev; exact (fun H => H).
Qed.

Lemma registered_nil (m : Machine) :
  (forall on, registered on m = []) -> listeners m = [].
Proof.
  unfold registered. destruct (listeners m) as [|[i o] ls]; [reflexivity|].
  intros H. specialize (H o). cbn in H.
  destruct o; cbn in H; discriminate.
Qed.

Lemma tidy_dispose (m : Machine) :
  tidy m -> tidy (dispose m) /\ listeners (dispose m) = [].
Proof.
  intros T. apply tidy_stop in T.
  destruct (stop_this m) as (_ & S2 & S3).
  destruct T as (H1 & H2 & H3 & H4 & H5 & H6).
  unfold editor_listeners in H4. rewrite S2 in H4.
  unfold dispose.
  set (x := with_this (statusBar_call StatusBar.dispose) (stop m)).
  assert (Ex : _disposables (this x) = _disposables (this (stop m)) /\
               editorChangeListener (this x) = None /\
               taskHandler (this x) = None /\
               forall on, registered on x = registered on (stop m)).
  { subst x. revert S2 S3. generalize (stop m).
    intros [[? ? ? ? ? [sb|]] ? ? ? ?]; cbn; intros -> ->; auto. }
  destruct Ex as (E1 & E2 & E3 & E4).
  rewrite E1, H1. cbn [fold_left].
  assert (R : forall on, registered on (dispose_ (Listener 1 Vscode.onDidCloseTerminal)
                           (dispose_ (Listener 0 Vscode.onDidEndTask) x)) = []).
  { intros on. rewrite !registered_dispose_, E4.
    destruct on.
    - destruct H2 as [-> | ->]; reflexivity.
    - destruct H3 as [-> | ->]; reflexivity.
    - rewrite H4. reflexivity. }
  split; [|apply registered_nil, R].
  unfold tidy, editor_listeners. rewrite !R, !dispose__this, E1, E2, E3.
  repeat split; auto; intros; discriminate.
Qed.

Lemma tidy_step (rev : Revision) (opt : SimpleServerOptions) (env : Vscode.Env)
      (ev : Event) (m : Machine) :
  tidy m -> tidy (step rev opt env ev m).
Proof.
  intros T. destruct ev; cbn [step].
  - now apply tidy_start.
  - now apply tidy_stop.
  - unfold toggle. destruct (isStarted (this m));
      [now apply tidy_stop | now apply tidy_start].
  - now apply tidy_dispose.
  - apply notify_ind; [|exact T]. intros x Hx.
    unfold onDidEndTask_listener. destruct (_ =? _); [now apply tidy_stop|exact Hx].
  - apply notify_ind; [|exact T]. intros x Hx.
    unfold onDidCloseTerminal_listener.
    destruct (_ =? _); [now apply tidy_stop|exact Hx].
  - apply notify_ind; [|exact T]. intros x Hx. now apply tidy_navigate.
  - destruct (nth_error (pending m) i) as [k|]; [|exact T].
    pose proof (@tidy_resume rev opt k r env m T) as H.
    destruct (resume rev opt k r env m) as [k' m']. exact H.
Qed.

Lemma wired_tidy (m : Machine) :
  wired m ->
  registered Vscode.onDidChangeActiveTextEditor m = editor_listeners (this m) ->
  tidy m.
Proof.
  intros (H1 & H2 & H3 & H4 & H5) H. unfold tidy. auto 10.
Qed.

Lemma tidy_new (rev : Revision) (opt : SimpleServerOptions) (env : Vscode.Env) :
  tidy (new rev opt env).
Proof.
  assert (T0 : tidy (constructor_listeners empty))
    by (unfold tidy; cbn; repeat split; auto; discriminate).
  assert (T1 : tidy (constructor_listeners (constructor_statusBar opt empty)))
    by (unfold constructor_statusBar; destruct (statusBar_ opt);
        unfold tidy; cbn; repeat split; auto; discriminate).
  assert (A : forall x, tidy x -> tidy (constructor_autoStart rev opt env x)).
  { intros x Hx. unfold constructor_autoStart.
    destruct (truthyBool (autoStart opt)); [now apply tidy_start|exact Hx]. }
  assert (B : forall x, tidy x -> tidy (constructor_statusBar opt x)).
  { intros x Hx. unfold constructor_statusBar.
    destruct (statusBar_ opt); [|exact Hx].
    destruct x as [[? ? ? ? ? ?] ? ? ? ?]. exact Hx. }
  destruct rev; cbn [new]; auto.
Qed.

Lemma tidy_run (rev : Revision) (opt : SimpleServerOptions)
      (evs : list (Vscode.Env * Event)) (m : Machine) :
  tidy m -> tidy (run rev opt evs m).
Proof.
  revert m. induction evs as [|[env ev] evs IH]; intros m T; cbn; [exact T|].
  apply IH. now apply tidy_step.
Qed.

(** X2.  In every state the controller can reach from its constructor,
    by whatever calls, notifications and resumptions, the host holds at
    most one editor-change registration and it is the one stored in
    [editorChangeListener]; when the controller is not started there is
    none, and an editor change does nothing at all. *)
Theorem editor_listener_unique (rev : Revision) (opt : SimpleServerOptions)
        (env0 : Vscode.Env) (evs : list (Vscode.Env * Event)) :
  let m := run rev opt evs (new rev opt env0) in
  registered Vscode.onDidChangeActiveTextEditor m = editor_listeners (this m) /\
  (length (registered Vscode.onDidChangeActiveTextEditor m) <= 1)%nat /\
  (isStarted (this m) = true <->
   length (registered Vscode.onDidChangeActiveTextEditor m) = 1%nat) /\
  (isStarted (this m) = false ->
   forall env, step rev opt env didChangeActiveTextEditor m = m).
Proof.
  intros m.
  assert (T : tidy m) by (apply tidy_run, tidy_new).
  destruct T as (_ & _ & _ & H4 & H5 & _).
  split; [exact H4|].
  rewrite H4.
  unfold editor_listeners, isStarted in *.
  destruct (editorChangeListener (this m)) as [d|].
  - destruct (H5 d eq_refl) as [id ->]. cbn.
    repeat split; auto; discriminate.
  - cbn. repeat split; auto; try discriminate.
    intros _ env. cbn [step]. unfold notify.
    fold (registered Vscode.onDidChangeActiveTextEditor m). rewrite H4. reflexivity.
Qed.

Lemma editor_listener_unique_witness :
  let evs := (launch ++ [(quiet 0, call_stop)])%list in
  let m := run Part000Logger dev evs (new Part000Logger dev (quiet 0)) in
  isStarted (this m) = false /\
  step Part000Logger dev (editing [running] []) didChangeActiveTextEditor m = m.
Proof.
  intros evs m. split; [reflexivity|].
  exact (proj2 (proj2 (proj2 (editor_listener_unique Part000Logger dev (quiet 0) evs)))
               eq_refl (editing [running] [])).
Defined.

(** *** The indicator along a run *)

Lemma configured_indicator_call (opt : SimpleServerOptions) (b : BadgeCall)
      (c c' : SimpleServer) :
  configured_indicator opt c ->
  statusBar c' = option_map (badge_call b) (statusBar c) ->
  configured_indicator opt c'.
Proof.
  unfold configured_indicator. intros H ->.
  destruct (statusBar_ opt) as [cfg|], (statusBar c) as [sb|]; cbn; try exact H.
  destruct H as (H1 & H2 & H3 & H4).
  unfold StatusBar.shows in H2. destruct H2 as (_ & T1 & T2 & T3 & T4 & T5).
  destruct b; cbn; unfold StatusBar.shows; cbn; intuition.
Qed.

Lemma configured_indicator_same (opt : SimpleServerOptions) (c c' : SimpleServer) :
  configured_indicator opt c ->
  statusBar c' = statusBar c ->
  configured_indicator opt c'.
Proof. unfold configured_indicator. now intros H ->. Qed.

Lemma start_statusBar (rev : Revision) (opt : SimpleServerOptions)
      (env : Vscode.Env) (m : Machine) :
  statusBar (this (start rev opt env m)) = statusBar (this m) \/
  statusBar (this (start rev opt env m))
    = option_map StatusBar.spinning (statusBar (this m)).
Proof.
  unfold start. destruct (isStarted (this m)); [now left|right].
  destruct m as [[ds l h u s sb] ls n cs p].
  unfold _startTask. cbn.
  destruct (find _ _) as [t|]; [destruct (Vscode.exitStatus t)|];
    destruct rev, sb; reflexivity.
Qed.

Lemma resume_statusBar (rev : Revision) (opt : SimpleServerOptions)
      (k : Suspended) (r : Settled) (env : Vscode.Env) (m : Machine) :
  statusBar (this (snd (resume rev opt k r env m))) = statusBar (this m) \/
  statusBar (this (snd (resume rev opt k r env m)))
    = option_map StatusBar.started (statusBar (this m)).
Proof.
  destruct m as [[ds l h u s sb] ls n cs p], env as [ts gs [[ur [f|]]|] t].
  all: destruct k, r as [[| |]|], rev; crush_resume.
  all: destruct sb; cbn; auto.
Qed.

Lemma dispose_statusBar (m : Machine) :
  statusBar (this (dispose m))
  = option_map (fun sb => StatusBar.dispose (StatusBar.stopped sb))
               (statusBar (this m)).
Proof.
  unfold dispose. rewrite dispose_all_this.
  destruct m as [[ds l h u s sb] ls n cs p].
  destruct l as [[]|], h as [[]|], sb; reflexivity.
Qed.

Lemma configured_indicator_stop (opt : SimpleServerOptions) (m : Machine) :
  configured_indicator opt (this m) -> configured_indicator opt (this (stop m)).
Proof.
  intros H. apply (@configured_indicator_call opt to_stopped _ _ H).
  apply stop_statusBar.
Qed.

Lemma configured_indicator_start (rev : Revision) (opt : SimpleServerOptions)
      (env : Vscode.Env) (m : Machine) :
  configured_indicator opt (this m) ->
  configured_indicator opt (this (start rev opt env m)).
Proof.
  intros H. destruct (start_statusBar rev opt env m) as [E | E].
  - now apply (@configured_indicator_same _ _ _ H).
  - now apply (@configured_indicator_call opt to_spinning _ _ H).
Qed.

Lemma configured_indicator_step (rev : Revision) (opt : SimpleServerOptions)
      (env : Vscode.Env) (ev : Event) (m : Machine) :
  configured_indicator opt (this m) ->
  configured_indicator opt (this (step rev opt env ev m)).
Proof.
  intros H. destruct ev; cbn [step].
  - now apply configured_indicator_start.
  - now apply configured_indicator_stop.
  - unfold toggle. destruct (isStarted (this m));
      [now apply configured_indicator_stop | now apply configured_indicator_start].
  - apply (@configured_indicator_call opt to_dispose (this (stop m)) _).
    + now apply configured_indicator_stop.
    + rewrite dispose_statusBar, stop_statusBar.
      destruct (statusBar (this m)); reflexivity.
  - apply (notify_ind (fun x => configured_indicator opt (this x))); [|exact H].
    intros x Hx. unfold onDidEndTask_listener.
    destruct (_ =? _); [now apply configured_indicator_stop|exact Hx].
  - apply (notify_ind (fun x => configured_indicator opt (this x))); [|exact H].
    intros x Hx. unfold onDidCloseTerminal_listener.
    destruct (_ =? _); [now apply configured_indicator_stop|exact Hx].
  - apply (notify_ind (fun x => configured_indicator opt (this x))); [|exact H].
    intros x Hx. now rewrite _navigateCurrentPage_this.
  - destruct (nth_error (pending m) i) as [k|]; [|exact H].
    destruct (resume_statusBar rev opt k r env m) as [E | E];
      destruct (resume rev opt k r env m) as [k' m']; cbn [snd] in E;
      cbn [this set_pending].
    + now apply (@configured_indicator_same _ _ _ H).
    + now apply (@configured_indicator_call opt to_started _ _ H).
Qed.

Lemma configured_indicator_new (rev : Revision) (opt : SimpleServerOptions)
      (env : Vscode.Env) :
  configured_indicator opt (this (new rev opt env)).
Proof.
  assert (B : forall x, statusBar (this x) = None ->
                        configured_indicator opt (this (constructor_statusBar opt x))).
  { intros x Hx. unfold constructor_statusBar, configured_indicator.
    destruct (statusBar_ opt) as [cfg|]; cbn.
    - unfold StatusBar.shows; cbn. intuition reflexivity.
    - now rewrite Hx. }
  assert (L : forall x, statusBar (this (constructor_listeners x)) = statusBar (this x))
    by reflexivity.
  assert (A : forall x, configured_indicator opt (this x) ->
                        configured_indicator opt (this (constructor_autoStart rev opt env x))).
  { intros x Hx. unfold constructor_autoStart.
    destruct (truthyBool (autoStart opt));
      [now apply configured_indicator_start | exact Hx]. }
  assert (N : forall x, statusBar (this x) = None ->
                        statusBar (this (constructor_autoStart rev opt env x)) = None).
  { intros x Hx. unfold constructor_autoStart.
    destruct (truthyBool (autoStart opt)); [|exact Hx].
    destruct (start_statusBar rev opt env x) as [E | E]; rewrite E, Hx; reflexivity. }
  destruct rev; cbn [new].
  - apply B, N. reflexivity.
  - apply A. apply (@configured_indicator_same _ _ _ (B empty eq_refl)). apply L.
  - apply A. apply (@configured_indicator_same _ _ _ (B empty eq_refl)). apply L.
Qed.

Lemma configured_indicator_run (rev : Revision) (opt : SimpleServerOptions)
      (evs : list (Vscode.Env * Event)) (m : Machine) :
  configured_indicator opt (this m) ->
  configured_indicator opt (this (run rev opt evs m)).
Proof.
  revert m. induction evs as [|[env ev] evs IH]; intros m H; cbn; [exact H|].
  apply IH. now apply configured_indicator_step.
Qed.

(** The widget [stopped()] and [dispose()] leave of a configured
    indicator is the freshly constructed one, disposed. *)
Lemma configured_indicator_disposed (opt : SimpleServerOptions) (m : Machine) :
  configured_indicator opt (this m) ->
  statusBar (this (dispose m))
  = option_map (fun cfg => StatusBar.dispose (StatusBar.new cfg)) (statusBar_ opt).
Proof.
  rewrite dispose_statusBar. unfold configured_indicator.
  destruct (statusBar_ opt) as [cfg|], (statusBar (this m)) as [sb|];
    try contradiction; [|reflexivity].
  intros (H1 & _ & H3 & H4).
  destruct sb as [o st [pr tx tt cm co bg sh di]]. cbn in *. subst. reflexivity.
Qed.


(** X3.  Whatever happened before, [dispose] leaves the host without any
    registration of the controller, both handles and the recorded URL
    cleared and the session Stopped.  If an indicator is configured the
    controller still has it: it is the widget the constructor made for
    that configuration, in its stopped appearance, and it has been
    disposed; if none is configured there is none.  Every notification
    that arrives afterwards is ignored. *)
Theorem dispose_leaves_nothing (rev : Revision) (opt : SimpleServerOptions)
        (env0 : Vscode.Env) (evs : list (Vscode.Env * Event)) :
  let m := dispose (run rev opt evs (new rev opt env0)) in
  listeners m = [] /\
  editorChangeListener (this m) = None /\
  taskHandler (this m) = None /\
  currentUrl (this m) = None /\
  sessionState (this m) = Stopped /\
  match statusBar_ opt with
  | Some cfg =>
      exists sb,
        statusBar (this m) = Some sb /\
        sb = StatusBar.dispose (StatusBar.new cfg) /\
        StatusBar.opt sb = cfg /\
        StatusBar.shows StatusBar.Stopped sb /\
        StatusBar.item_shown (StatusBar._statusBar sb) = true /\
        StatusBar.item_disposed (StatusBar._statusBar sb) = true
  | None => statusBar (this m) = None
  end /\
  match statusBar (this m) with
  | Some sb => StatusBar.shows StatusBar.Stopped sb /\
               StatusBar.item_disposed (StatusBar._statusBar sb) = true
  | None => True
  end /\
  (forall env name,
      step rev opt env (didEndTask name) m = m /\
      step rev opt env (didCloseTerminal name) m = m /\
      step rev opt env didChangeActiveTextEditor m = m).
Proof.
  intros m. subst m.
  set (x := run rev opt evs (new rev opt env0)).
  assert (T : tidy x) by (apply tidy_run, tidy_new).
  assert (C : configured_indicator opt (this x))
    by (apply configured_indicator_run, configured_indicator_new).
  destruct (tidy_dispose T) as [_ L].
  pose proof (@configured_indicator_disposed opt x C) as B.
  assert (F : this (dispose x) = statusBar_call StatusBar.dispose (this (stop x))).
  { unfold dispose. now rewrite dispose_all_this. }
  destruct (stop_fields x) as (F1 & F2 & F3 & F4 & _).
  assert (G : editorChangeListener (this (dispose x)) = None /\
              taskHandler (this (dispose x)) = None /\
              currentUrl (this (dispose x)) = None /\
              serverStarted (this (dispose x)) = None).
  { rewrite F. unfold statusBar_call.
    destruct (this (stop x)) as [ds l h u s [sb|]]; cbn in *; auto. }
  destruct G as (G1 & G2 & G3 & G4).
  split; [exact L|]. split; [exact G1|]. split; [exact G2|]. split; [exact G3|].
  split; [unfold sessionState; now rewrite G4|].
  rewrite B.
  split; [|split].
  - destruct (statusBar_ opt) as [cfg|]; cbn; [|reflexivity].
    eexists. split; [reflexivity|]. unfold StatusBar.shows. cbn.
    intuition reflexivity.
  - destruct (statusBar_ opt) as [cfg|]; cbn; [|exact I].
    unfold StatusBar.shows. cbn. intuition reflexivity.
  - intros env name. cbn [step]. unfold notify. rewrite L. cbn. auto.
Qed.

(** *** toggle *)

Lemma start_isStarted (rev : Revision) (opt : SimpleServerOptions)
      (env : Vscode.Env) (m : Machine) :
  isStarted (this (start rev opt env m)) = true.
Proof.
  unfold start. destruct (isStarted (this m)) eqn:Hs; [exact Hs|].
  unfold _startTask. destruct m as [[ds l h u s sb] ls n cs p]. cbn.
  destruct (find _ _) as [t|]; [destruct (Vscode.exitStatus t)|];
    destruct rev, sb; reflexivity.
Qed.

Lemma start_pending (rev : Revision) (opt : SimpleServerOptions)
      (env : Vscode.Env) (m : Machine) :
  isStarted (this m) = false ->
  exists k, pending (start rev opt env m) = (pending m ++ [k])%list /\
            (k = start_startTask \/ k = start_getStartCommand).
Proof.
  intros Hs. unfold start, _startTask. rewrite Hs.
  destruct m as [[ds l h u s sb] ls n cs p]. cbn.
  destruct (find _ _) as [t|]; [destruct (Vscode.exitStatus t)|];
    destruct rev, sb; cbn; eauto.
Qed.

(** X4.  [toggle] stops a started controller and starts one that is not
    started.  Two [toggle]s on a controller that is not started amount to
    [start] followed by [stop]: both handles are cleared again and no
    editor-change registration is left, but the [start] that the first
    [toggle] began is still in flight.  Two [toggle]s on a started
    controller amount to [stop] followed by a [start] that gets past the
    guard. *)
Theorem toggle_twice (rev : Revision) (opt : SimpleServerOptions)
        (env env' : Vscode.Env) (m : Machine) :
  (isStarted (this m) = false ->
   let m' := toggle rev opt env' (toggle rev opt env m) in
   m' = stop (start rev opt env m) /\
   editorChangeListener (this m') = None /\
   taskHandler (this m') = None /\
   sessionState (this m') = Stopped /\
   (tidy m -> registered Vscode.onDidChangeActiveTextEditor m' = []) /\
   exists k, pending m' = (pending m ++ [k])%list) /\
  (isStarted (this m) = true ->
   let m' := toggle rev opt env' (toggle rev opt env m) in
   m' = start rev opt env' (stop m) /\
   isStarted (this m') = true /\
   sessionState (this m') = Spinning).
Proof.
  split; intros Hs m'.
  - assert (E : m' = stop (start rev opt env m)).
    { subst m'. unfold toggle. rewrite Hs. now rewrite start_isStarted. }
    rewrite E.
    split; [reflexivity|].
    destruct (stop_fields (start rev opt env m)) as (F1 & F2 & _ & F4 & _).
    split; [exact F1|]. split; [exact F2|].
    split; [unfold sessionState; now rewrite F4|].
    split.
    + intros T.
      assert (T' : tidy (stop (start rev opt env m)))
        by now apply tidy_stop, tidy_start.
      destruct T' as (_ & _ & _ & H4 & _). rewrite H4.
      unfold editor_listeners. now rewrite F1.
    + destruct (start_pending rev opt env m Hs) as (k & Hk & _).
      exists k. now rewrite (proj1 (stop_pending _)).
  - assert (Hn : isStarted (this (stop m)) = false)
      by (unfold isStarted; now rewrite (proj1 (stop_fields m))).
    assert (E : m' = start rev opt env' (stop m)).
    { subst m'. unfold toggle. rewrite Hs. now rewrite Hn. }
    rewrite E.
    split; [reflexivity|]. split; [apply start_isStarted|].
    unfold start, _startTask. rewrite Hn.
    destruct (stop m) as [[ds l h u s sb] ls n cs p]. cbn.
    destruct (find _ _) as [t|]; [destruct (Vscode.exitStatus t)|];
      destruct rev, sb; reflexivity.
Qed.

Lemma toggle_twice_witness :
  let m := new Part000Logger dev (quiet 0) in
  isStarted (this m) = false /\
  tidy m /\
  toggle Part000Logger dev (quiet 0) (toggle Part000Logger dev (quiet 0) m)
    = stop (start Part000Logger dev (quiet 0) m) /\
  registered Vscode.onDidChangeActiveTextEditor
    (toggle Part000Logger dev (quiet 0) (toggle Part000Logger dev (quiet 0) m)) = [].
Proof.
  intros m.
  assert (T : tidy m) by apply tidy_new.
  split; [reflexivity|]. split; [exact T|].
  destruct (proj1 (toggle_twice Part000Logger dev (quiet 0) (quiet 0) m) eq_refl)
    as (H1 & _ & _ & _ & H5 & _).
  split; [exact H1 | exact (H5 T)].
Defined.

(** *** The constructor *)

(** X5.  Without [autoStart] the three revisions construct the same
    controller, in whichever order they create the indicator and register
    the listeners: nothing is started, no collaborator has been called,
    the two lifetime listeners are registered and the indicator, if
    configured, is shown in its stopped appearance. *)
Theorem constructor_without_autoStart (rev : Revision) (opt : SimpleServerOptions)
        (env : Vscode.Env) :
  truthyBool (autoStart opt) = false ->
  let m := new rev opt env in
  m = new SimpleServerTs opt env /\
  calls m = [] /\ pending m = [] /\
  isStarted (this m) = false /\
  taskHandler (this m) = None /\
  sessionState (this m) = Stopped /\
  listeners m = [(0, Vscode.onDidEndTask); (1, Vscode.onDidCloseTerminal)] /\
  match statusBar_ opt, statusBar (this m) with
  | Some cfg, Some sb =>
      sb = StatusBar.new cfg /\ StatusBar.shows StatusBar.Stopped sb /\
      StatusBar.item_shown (StatusBar._statusBar sb) = true
  | None, None => True
  | _, _ => False
  end.
Proof.
  intros Ha m. subst m.
  unfold new, constructor_autoStart, constructor_statusBar. rewrite Ha.
  destruct rev, (statusBar_ opt); cbn; unfold StatusBar.shows; cbn;
    intuition reflexivity.
Qed.

Lemma constructor_without_autoStart_witness :
  truthyBool (autoStart dev) = false /\
  new Part000Plain dev (quiet 0) = new SimpleServerTs dev (quiet 0) /\
  calls (new Part000Plain dev (quiet 0)) = [].
Proof.
  split; [reflexivity|].
  destruct (constructor_without_autoStart Part000Plain dev (quiet 0) eq_refl)
    as (H1 & H2 & _).
  split; [exact H1 | exact H2].
Defined.

(** *** The two part_000 revisions *)

Lemma resume_logger_plain (opt : SimpleServerOptions) (k : Suspended)
      (r : Settled) (env : Vscode.Env) (m : Machine) :
  resume Part000Logger opt k r env m = resume Part000Plain opt k r env m.
Proof. destruct k, r as [[| |]|]; reflexivity. Qed.

Lemma start_logger_plain (opt : SimpleServerOptions) (env : Vscode.Env) (m : Machine) :
  start Part000Logger opt env m =
    if isStarted (this m) then m
    else start Part000Plain opt env (with_this (set_currentUrl None) m).
Proof.
  unfold start, _startTask.
  destruct m as [[ds l h u s sb] ls n cs p]. cbn.
  destruct l; [reflexivity|]. cbn.
  destruct (find _ _) as [t|]; [destruct (Vscode.exitStatus t)|];
    destruct sb; reflexivity.
Qed.

(** X6.  The logger revision of part_000 is the plain one plus the reset
    of the recorded URL at the top of [_startTask]: every resumption does
    the same in both, a [start] in the logger revision is a [start] of
    the plain one on a controller whose recorded URL has been cleared,
    and from a state with no recorded URL every operation and
    notification has the same outcome in both. *)
Theorem logger_is_plain_with_reset (opt : SimpleServerOptions) :
  (forall k r env m,
      resume Part000Logger opt k r env m = resume Part000Plain opt k r env m) /\
  (forall env m,
      start Part000Logger opt env m =
        if isStarted (this m) then m
        else start Part000Plain opt env (with_this (set_currentUrl None) m)) /\
  (forall env ev m,
      currentUrl (this m) = None ->
      step Part000Logger opt env ev m = step Part000Plain opt env ev m).
Proof.
  split; [apply resume_logger_plain|]. split; [apply start_logger_plain|].
  intros env ev m Hu.
  assert (E : with_this (set_currentUrl None) m = m).
  { destruct m as [[ds l h u s sb] ls n cs p]. cbn in Hu. now subst u. }
  assert (S : start Part000Logger opt env m = start Part000Plain opt env m).
  { rewrite start_logger_plain, E.
    destruct (isStarted (this m)) eqn:Hs; [|reflexivity].
    symmetry. now apply start_guard. }
  destruct ev; cbn [step]; try reflexivity.
  - exact S.
  - unfold toggle. now rewrite S.
Qed.

Lemma logger_is_plain_with_reset_witness :
  currentUrl (this (new Part000Logger dev (quiet 0))) = None /\
  step Part000Logger dev (editing [running] []) call_start
       (new Part000Logger dev (quiet 0))
  = step Part000Plain dev (editing [running] []) call_start
         (new Part000Logger dev (quiet 0)).
Proof.
  split; [reflexivity|].
  exact (proj2 (proj2 (logger_is_plain_with_reset dev))
               (editing [running] []) call_start
               (new Part000Logger dev (quiet 0)) eq_refl).
Defined.

(** *** What stop and dispose dispose *)

Lemma dispose_all_calls (ds : list Disposable) (m : Machine) :
  calls (fold_left (fun m i => dispose_ i m) ds m)
  = (calls m ++ map disposed ds)%list.
Proof.
  revert m. induction ds as [|d ds IH]; intros m; cbn.
  - now rewrite app_nil_r.
  - rewrite IH. destruct d; cbn; now rewrite <- app_assoc.
Qed.

Lemma stop_listeners_incl (m : Machine) (l : nat * Vscode.Notification) :
  In l (listeners (stop m)) -> In l (listeners m).
Proof.
  destruct m as [[ds e h u s sb] ls n cs p].
  destruct e as [[]|], h as [[]|], sb; cbn; intros H;
    repeat (apply filter_In in H; destruct H as [H _]); exact H.
Qed.

Lemma dispose_calls (m : Machine) :
  calls (dispose m)
  = (calls m ++ map disposed (held (this m))
             ++ map disposed (_disposables (this m)))%list /\
  pending (dispose m) = pending m.
Proof.
  destruct (stop_this m) as (S1 & S2 & S3).
  unfold dispose.
  set (x := with_this (statusBar_call StatusBar.dispose) (stop m)).
  assert (Ex : _disposables (this x) = _disposables (this m) /\
               calls x = calls (stop m) /\ pending x = pending (stop m)).
  { subst x. rewrite <- S1. generalize (stop m).
    intros [[? ? ? ? ? [sb|]] ? ? ? ?]; cbn; auto. }
  destruct Ex as (E1 & E2 & E3).
  split.
  - rewrite dispose_all_calls, E1, E2, stop_calls, <- app_assoc. reflexivity.
  - rewrite E1. clearbody x.
    assert (P : forall ds y, pending (fold_left (fun m i => dispose_ i m) ds y)
                             = pending y).
    { induction ds as [|d ds IH]; intros y; cbn; [reflexivity|].
      rewrite IH. destruct d; reflexivity. }
    rewrite P, E3. apply stop_pending.
Qed.

(** X7.  [stop] disposes what the controller holds and nothing else: the
    editor-change subscription first, then the task handle, each once and
    only if present.  It registers nothing, and it leaves every
    suspended call in flight.  [dispose] makes the same calls and then
    disposes the constructor's disposables in the order they were
    added. *)
Theorem stop_disposes_what_it_holds (m : Machine) :
  calls (stop m) = (calls m ++ map disposed (held (this m)))%list /\
  held (this (stop m)) = [] /\
  pending (stop m) = pending m /\
  (forall l, In l (listeners (stop m)) -> In l (listeners m)) /\
  calls (dispose m)
  = (calls m ++ map disposed (held (this m))
             ++ map disposed (_disposables (this m)))%list /\
  pending (dispose m) = pending m.
Proof.
  destruct (stop_this m) as (S1 & S2 & S3).
  split; [apply stop_calls|].
  split; [unfold held; now rewrite S2, S3|].
  split; [apply stop_pending|].
  split; [apply stop_listeners_incl|].
  apply dispose_calls.
Qed.

Lemma stop_disposes_what_it_holds_witness :
  let m := run Part000Logger dev launch (new Part000Logger dev (quiet 0)) in
  In (0, Vscode.onDidEndTask) (listeners (stop m)) /\
  In (0, Vscode.onDidEndTask) (listeners m).
Proof.
  intros m.
  assert (H : In (0, Vscode.onDidEndTask) (listeners (stop m)))
    by (left; reflexivity).
  split; [exact H|].
  exact (proj1 (proj2 (proj2 (proj2 (stop_disposes_what_it_holds m)))) _ H).
Defined.

(** *** The calls the controller makes *)

Lemma resume_well_formed (rev : Revision) (opt : SimpleServerOptions)
      (k : Suspended) (r : Settled) (env : Vscode.Env) (m : Machine) :
  Forall (well_formed opt) (calls m) ->
  Forall (well_formed opt) (calls (snd (resume rev opt k r env m))).
Proof.
  intros H.
  destruct m as [c ls n cs p], env as [ts gs [[u [f|]]|] t].
  all: destruct k, r as [[| |]|], rev; crush_resume.
  all: rewrite ?Forall_app; repeat split; auto;
    repeat constructor; cbn; auto.
Qed.

Lemma navigate_well_formed (rev : Revision) (opt : SimpleServerOptions)
      (env : Vscode.Env) (m : Machine) :
  Forall (well_formed opt) (calls m) ->
  Forall (well_formed opt) (calls (_navigateCurrentPage rev env m)).
Proof.
  intros H. unfold _navigateCurrentPage.
  destruct (Vscode.activeTextEditor env) as [[u [f|]]|], rev; cbn; auto.
  all: rewrite Forall_app; split; auto; repeat constructor.
Qed.

Lemma disposed_well_formed (opt : SimpleServerOptions) (ds : list Disposable) :
  Forall (well_formed opt) (map disposed ds).
Proof. induction ds; cbn; constructor; cbn; auto. Qed.

Lemma start_calls (rev : Revision) (opt : SimpleServerOptions)
      (env : Vscode.Env) (m : Machine) :
  calls (start rev opt env m) = calls m \/
  calls (start rev opt env m) = (calls m ++ [getStartCommand])%list.
Proof.
  unfold start. destruct (isStarted (this m)); [now left|].
  unfold _startTask. destruct m as [[ds l h u s sb] ls n cs p]. cbn.
  destruct (find _ _) as [t|]; [destruct (Vscode.exitStatus t)|];
    destruct rev, sb; cbn; auto.
Qed.

Lemma step_well_formed (rev : Revision) (opt : SimpleServerOptions)
      (env : Vscode.Env) (ev : Event) (m : Machine) :
  Forall (well_formed opt) (calls m) ->
  Forall (well_formed opt) (calls (step rev opt env ev m)).
Proof.
  intros H.
  assert (Hstop : forall x, Forall (well_formed opt) (calls x) ->
                            Forall (well_formed opt) (calls (stop x))).
  { intros x Hx. rewrite stop_calls, Forall_app.
    split; [exact Hx | apply disposed_well_formed]. }
  assert (Hstart : forall x, Forall (well_formed opt) (calls x) ->
                             Forall (well_formed opt) (calls (start rev opt env x))).
  { intros x Hx. destruct (start_calls rev opt env x) as [-> | ->]; [exact Hx|].
    rewrite Forall_app. split; [exact Hx | repeat constructor]. }
  destruct ev; cbn [step]; auto.
  - unfold toggle. destruct (isStarted (this m)); auto.
  - rewrite (proj1 (dispose_calls m)).
    rewrite !Forall_app. repeat split; auto using disposed_well_formed.
  - apply notify_ind; [|exact H]. intros x Hx.
    unfold onDidEndTask_listener. destruct (_ =? _); auto.
  - apply notify_ind; [|exact H]. intros x Hx.
    unfold onDidCloseTerminal_listener. destruct (_ =? _); auto.
  - apply notify_ind; [|exact H]. intros x Hx. now apply navigate_well_formed.
  - destruct (nth_error (pending m) i) as [k|]; [|exact H].
    pose proof (@resume_well_formed rev opt k r env m H) as H'.
    destruct (resume rev opt k r env m) as [k' m']. exact H'.
Qed.

(** X8.  On every run from the constructor, each task the controller
    launches carries the configured task name (the name its own
    task-ended listener waits for), each command it executes is
    simpleBrowser.api.open with beside placement and preserveFocus, and
    each pause is of 500 ms. *)
Theorem calls_well_formed (rev : Revision) (opt : SimpleServerOptions)
        (env0 : Vscode.Env) (evs : list (Vscode.Env * Event)) :
  Forall (well_formed opt) (calls (run rev opt evs (new rev opt env0))).
Proof.
  assert (H0 : Forall (well_formed opt) (calls (new rev opt env0))).
  { assert (A : forall x, calls x = [] ->
                          Forall (well_formed opt)
                                 (calls (constructor_autoStart rev opt env0 x))).
    { intros x Hx. unfold constructor_autoStart.
      destruct (truthyBool (autoStart opt)); [|rewrite Hx; constructor].
      destruct (start_calls rev opt env0 x) as [-> | ->]; rewrite Hx;
        repeat constructor. }
    unfold new, constructor_statusBar.
    destruct rev, (statusBar_ opt); try (apply A; reflexivity).
    all: match goal with |- context [constructor_autoStart ?r ?o ?e ?x] =>
           specialize (A x eq_refl);
           destruct (constructor_autoStart r o e x) as [? ? ? ? ?]; exact A end. }
  generalize dependent (new rev opt env0). induction evs as [|[env ev] evs IH];
    intros m H; cbn; [exact H|].
  apply IH. now apply step_well_formed.
Qed.

(** *** A start that fails *)








(** *** Navigation *)

Lemma _openUrl_frame (url : string) (env : Vscode.Env) (m : Machine) :
  let m' := _openUrl url env m in
  this m' = set_currentUrl (currentUrl (this m')) (this m) /\
  listeners m' = listeners m /\
  pending m' = pending m /\
  (calls m' = calls m \/ calls m' = (calls m ++ [openPreview url])%list) /\
  (currentUrl (this m') = currentUrl (this m) \/
   serverStarted (this m) = Some true /\ currentUrl (this m') = Some url).
Proof.
  destruct m as [[ds l h u s sb] ls n cs p]. unfold _openUrl. cbn.
  destruct (strictEqStr u url && hasSimpleBrowserOpened env);
    [|destruct s as [[]|]]; cbn; auto 10.
Qed.

(** X10.  When the URL of the active document has been resolved, the
    part_000 revisions hand it to [_openUrl] unless it is undefined or
    empty, and src/src/SimpleServer.ts hands on every string, the empty
    one too; a rejection changes nothing.  In every case the navigation
    changes nothing of the controller except, at most, the recorded URL
    (and that only if [serverStarted] is true), and calls nothing
    except, at most, the open-preview command for the resolved URL. *)
Theorem navigation_result (rev : Revision) (opt : SimpleServerOptions)
        (uri : string) (r : Settled) (env : Vscode.Env) (m : Machine) :
  let m' := snd (resume rev opt (navigate_resolveUrl uri) r env m) in
  (r = Rejected -> m' = m) /\
  (isPart000 rev = true -> r = Fulfilled Undefined -> m' = m) /\
  (forall url, r = Fulfilled (Str url) ->
               m' = if isPart000 rev && (url =? "") then m
                    else _openUrl url env m) /\
  this m' = set_currentUrl (currentUrl (this m')) (this m) /\
  listeners m' = listeners m /\
  pending m' = pending m /\
  (calls m' = calls m \/
   exists url, r = Fulfilled (Str url) /\
               calls m' = (calls m ++ [openPreview url])%list) /\
  (currentUrl (this m') = currentUrl (this m) \/
   exists url, r = Fulfilled (Str url) /\
               serverStarted (this m) = Some true /\
               currentUrl (this m') = Some url).
Proof.
  intros m'.
  assert (Same : forall x : Machine,
             this x = set_currentUrl (currentUrl (this x)) (this x))
    by (intros [[? ? ? ? ? ?] ? ? ? ?]; reflexivity).
  assert (Idle : m' = m ->
                 this m' = set_currentUrl (currentUrl (this m')) (this m) /\
                 listeners m' = listeners m /\
                 pending m' = pending m /\
                 (calls m' = calls m \/
                  exists url, r = Fulfilled (Str url) /\
                              calls m' = (calls m ++ [openPreview url])%list) /\
                 (currentUrl (this m') = currentUrl (this m) \/
                  exists url, r = Fulfilled (Str url) /\
                              serverStarted (this m) = Some true /\
                              currentUrl (this m') = Some url))
    by (intros ->; auto 10).
  assert (Open : forall url, r = Fulfilled (Str url) -> m' = _openUrl url env m ->
                 this m' = set_currentUrl (currentUrl (this m')) (this m) /\
                 listeners m' = listeners m /\
                 pending m' = pending m /\
                 (calls m' = calls m \/
                  exists url, r = Fulfilled (Str url) /\
                              calls m' = (calls m ++ [openPreview url])%list) /\
                 (currentUrl (this m') = currentUrl (this m) \/
                  exists url, r = Fulfilled (Str url) /\
                              serverStarted (this m) = Some true /\
                              currentUrl (this m') = Some url)).
  { intros url Hr ->.
    destruct (_openUrl_frame url env m) as (F1 & F2 & F3 & F4 & F5).
    split; [exact F1|]. split; [exact F2|]. split; [exact F3|].
    split; [destruct F4; eauto | destruct F5; eauto]. }
  clear Same. subst m'.
  destruct r as [[| url|e]|]; cbn in *.
  - destruct rev; cbn in *;
      (split; [discriminate|]); (split; [auto; discriminate|]);
      (split; [discriminate|]); now apply Idle.
  - unfold _navigateCurrentPage_resolved in *.
    destruct rev; cbn in *.
    + split; [discriminate|]. split; [discriminate|].
      split; [intros ? [= <-]; reflexivity|]. now apply (Open url).
    + split; [discriminate|]. split; [discriminate|].
      split; [intros ? [= <-]; destruct (url =? ""); reflexivity|].
      destruct (url =? ""); cbn in *; [now apply Idle | now apply (Open url)].
    + split; [discriminate|]. split; [discriminate|].
      split; [intros ? [= <-]; destruct (url =? ""); reflexivity|].
      destruct (url =? ""); cbn in *; [now apply Idle | now apply (Open url)].
  - (split; [discriminate|]); (split; [discriminate|]);
      (split; [discriminate|]); now apply Idle.
  - (split; [reflexivity|]); (split; [discriminate|]);
      (split; [discriminate|]); now apply Idle.
Qed.

Lemma navigation_result_witness :
  let m := run Part000Logger dev launch (new Part000Logger dev (quiet 0)) in
  Rejected = Rejected /\
  snd (resume Part000Logger dev (navigate_resolveUrl "/w/a.md") Rejected
              (editing [running] []) m) = m.
Proof.
  intros m. split; [reflexivity|].
  exact (proj1 (navigation_result Part000Logger dev "/w/a.md" Rejected
                                  (editing [running] []) m) eq_refl).
Defined.

(** X11.  As long as [serverStarted] is not true and no URL is recorded
    (so after every [stop], and through the Spinning phase of a session
    that began with nothing recorded), no request is deduplicated and
    none is recorded: a series of requests issues one open-preview
    command each, repeated URLs and an open preview tab
    notwithstanding, and leaves the controller as it was. *)
Theorem no_dedup_before_started (env : Vscode.Env) (urls : list string) (m : Machine) :
  truthyBool (serverStarted (this m)) = false ->
  currentUrl (this m) = None ->
  let m' := fold_left (fun m url => _openUrl url env m) urls m in
  this m' = this m /\
  calls m' = (calls m ++ map openPreview urls)%list.
Proof.
  revert m. induction urls as [|url urls IH]; intros m Hs Hu; cbn.
  - now rewrite app_nil_r.
  - assert (E : _openUrl url env m = call (openPreview url) m).
    { unfold _openUrl. rewrite Hu, Hs. reflexivity. }
    rewrite E. destruct (IH (call (openPreview url) m) Hs Hu) as (H1 & H2).
    split; [exact H1|]. rewrite H2. cbn. now rewrite <- app_assoc.
Qed.

Lemma no_dedup_before_started_witness :
  let m := stop (run Part000Logger dev launch (new Part000Logger dev (quiet 0))) in
  let env := editing [running] [preview] in
  truthyBool (serverStarted (this m)) = false /\
  currentUrl (this m) = None /\
  calls (fold_left (fun m url => _openUrl url env m) ["http://x/a"; "http://x/a"] m)
  = (calls m ++ [openPreview "http://x/a"; openPreview "http://x/a"])%list.
Proof.
  intros m env. split; [reflexivity|]. split; [reflexivity|].
  exact (proj2 (no_dedup_before_started env ["http://x/a"; "http://x/a"] m
                                        eq_refl eq_refl)).
Defined.

(** *** The first probe and the launch *)

(** X12.  Once the root URL is resolved to a string, src/src/SimpleServer.ts
    always issues a first probe, with a deadline 15 s ahead, even for the
    empty string.  The part_000 revisions issue it only for a non-empty
    URL and a positive timeout, with the deadline [checkTimeout] (10 s by
    default) ahead.  Otherwise they probe nothing: for an empty URL
    [start] finishes at once with the indicator showing started, and for
    a timeout of zero or less (zero is not replaced by the default)
    [_detectServer] returns true without a call. *)
Theorem first_probe (rev : Revision) (opt : SimpleServerOptions)
        (rootUrl : string) (env : Vscode.Env) (m : Machine) :
  let k' := fst (resume rev opt start_resolveUrl (Fulfilled (Str rootUrl)) env m) in
  let m' := snd (resume rev opt start_resolveUrl (Fulfilled (Str rootUrl)) env m) in
  (probes rev opt rootUrl = true ->
   k' = Some (start_fetch rootUrl (Vscode.now env + timeout rev opt)) /\
   m' = call (fetch rootUrl) m) /\
  (probes rev opt rootUrl = false ->
   rootUrl = "" /\ k' = None /\ m' = start_finish rev env m /\
   indicator StatusBar.Started (this m') /\
   (calls m' = calls m \/
    exists uri, calls m' = (calls m ++ [resolveUrl (Some uri)])%list)
   \/
   rootUrl <> "" /\ (timeout rev opt <= 0)%Z /\
   k' = Some (start_detectServer true) /\ m' = m).
Proof.
  intros k' m'. subst k' m'. unfold probes.
  destruct rev; cbn.
  - split; [|discriminate]. intros _.
    unfold _detectServer, _detectServer_loop. cbn.
    replace (Vscode.now env <? Vscode.now env + 15000)%Z with true
      by (symmetry; apply Z.ltb_lt; lia).
    split; reflexivity.
  - destruct (rootUrl =? "") eqn:Eu; cbn.
    + apply String.eqb_eq in Eu. subst rootUrl.
      split; [discriminate|]. intros _.
      destruct (start_finish_fields Part000Logger env m) as (_ & _ & _ & _ & _ & F).
      left. repeat (split; [auto; fail|]).
      unfold start_finish, _navigateCurrentPage.
      destruct (Vscode.activeTextEditor env) as [ed|]; cbn; eauto.
    + apply String.eqb_neq in Eu.
      unfold _detectServer, _detectServer_loop.
      destruct (Z.ltb_spec 0 (timeout Part000Logger opt)) as [Ht | Ht].
      * replace (Vscode.now env <? Vscode.now env + timeout Part000Logger opt)%Z
          with true by (symmetry; apply Z.ltb_lt; lia).
        split; [intros _; split; reflexivity|].
        intros Hp. exfalso. apply Z.ltb_lt in Ht. unfold timeout in Ht.
        cbn in Hp. rewrite Ht in Hp. discriminate Hp.
      * replace (Vscode.now env <? Vscode.now env + timeout Part000Logger opt)%Z
          with false by (symmetry; apply Z.ltb_ge; lia).
        split; [|intros _; cbn; right; auto].
        intros Hp. exfalso. apply Z.ltb_ge in Ht. unfold timeout in Ht.
        cbn in Hp. rewrite Ht in Hp. discriminate Hp.
  - destruct (rootUrl =? "") eqn:Eu; cbn.
    + apply String.eqb_eq in Eu. subst rootUrl.
      split; [discriminate|]. intros _.
      destruct (start_finish_fields Part000Plain env m) as (_ & _ & _ & _ & _ & F).
      left. repeat (split; [auto; fail|]).
      unfold start_finish, _navigateCurrentPage.
      destruct (Vscode.activeTextEditor env) as [ed|]; cbn; eauto.
    + apply String.eqb_neq in Eu.
      unfold _detectServer, _detectServer_loop.
      destruct (Z.ltb_spec 0 (timeout Part000Plain opt)) as [Ht | Ht].
      * replace (Vscode.now env <? Vscode.now env + timeout Part000Plain opt)%Z
          with true by (symmetry; apply Z.ltb_lt; lia).
        split; [intros _; split; reflexivity|].
        intros Hp. exfalso. apply Z.ltb_lt in Ht. unfold timeout in Ht.
        cbn in Hp. rewrite Ht in Hp. discriminate Hp.
      * replace (Vscode.now env <? Vscode.now env + timeout Part000Plain opt)%Z
          with false by (symmetry; apply Z.ltb_ge; lia).
        split; [|intros _; cbn; right; auto].
        intros Hp. exfalso. apply Z.ltb_ge in Ht. unfold timeout in Ht.
        cbn in Hp. rewrite Ht in Hp. discriminate Hp.
Qed.

Lemma first_probe_witness :
  let opt0 := {| taskName := "dev"; autoStart := None;
                 statusBar_ := Some badge; checkTimeout := Some 0%Z |} in
  let m := new Part000Plain opt0 (quiet 0) in
  probes Part000Plain opt0 "http://x" = false /\
  probes SimpleServerTs opt0 "" = true /\
  snd (resume Part000Plain opt0 start_resolveUrl (Fulfilled (Str "http://x"))
              (quiet 0) m) = m /\
  snd (resume SimpleServerTs opt0 start_resolveUrl (Fulfilled (Str ""))
              (quiet 0) m) = call (fetch "") m.
Proof.
  intros opt0 m. split; [reflexivity|]. split; [reflexivity|].
  split.
  - destruct (proj2 (first_probe Part000Plain opt0 "http://x" (quiet 0) m) eq_refl)
      as [(H & _) | (_ & _ & _ & H)]; [discriminate H | exact H].
  - exact (proj2 (proj1 (first_probe SimpleServerTs opt0 "" (quiet 0) m) eq_refl)).
Defined.

(** X13.  A [start] asks the command provider exactly when it gets past
    the guard and cannot adopt a terminal; it asks once, launches
    nothing before the command has arrived, and leaves a task handle
    that is still stored as it is.  When the command arrives the task is
    launched under the configured name, and when the launch is
    acknowledged the execution becomes the task handle, whatever was
    stored before and whether or not a [stop] has run meanwhile. *)
Theorem start_asks_provider (rev : Revision) (opt : SimpleServerOptions)
        (env : Vscode.Env) (m : Machine) :
  let m' := start rev opt env m in
  calls m' =
    (calls m ++ if negb (isStarted (this m)) && negb (adoptable opt env)
                then [getStartCommand] else [])%list /\
  (isStarted (this m) = false -> adoptable opt env = false ->
   taskHandler (this m') = taskHandler (this m) /\
   pending m' = (pending m ++ [start_getStartCommand])%list) /\
  (forall commandLine env' x,
      resume rev opt start_getStartCommand (Fulfilled (Str commandLine)) env' x
      = (Some start_executeTask, call (executeTask (taskName opt) commandLine) x)) /\
  (forall e env' x,
      let x' := snd (resume rev opt start_executeTask (Fulfilled (Execution e)) env' x) in
      taskHandler (this x') = Some (ExecutionHandle e) /\
      calls x' = calls x).
Proof.
  intros m'. subst m'. unfold start, _startTask, adoptable, isStarted.
  destruct m as [[ds l h u s sb] ls n cs p]. cbn.
  destruct l as [d|]; cbn.
  - rewrite app_nil_r. repeat split; auto; discriminate.
  - destruct (find _ _) as [t|]; [destruct (Vscode.exitStatus t)|];
      destruct rev, sb; cbn; rewrite ?app_nil_r;
      repeat split; auto; discriminate.
Qed.

Lemma start_asks_provider_witness :
  let m := new Part000Logger dev (quiet 0) in
  let env := editing [exited; running] [] in
  isStarted (this m) = false /\
  adoptable dev env = false /\
  pending (start Part000Logger dev env m)
    = (pending m ++ [start_getStartCommand])%list.
Proof.
  intros m env. split; [reflexivity|]. split; [reflexivity|].
  exact (proj2 (proj1 (proj2 (start_asks_provider Part000Logger dev env m))
                      eq_refl eq_refl)).
Defined.
